(** * parse_metrics: debug sessions and per-session counters

    A shallow embedding of [parse_metrics.py]: the activity-line parser
    ([parse_activity]), the session builder ([build_debug_sessions]) and the
    session interpreter ([process_session]), followed by the properties of
    the builder and of the interpreter.

    Conventions of the model.
    - A Python [int] is a [Z]; the float infinity only ever appears as the
      "no such marker" value of [next_init_ts] / [next_stop_ts] and is
      modelled by [None] in an [option Z].
    - A Python [str] is a [string]; its characters are read as the code
      points 0..255.  The classes [\s], [\w] and [.] of the [re] module are
      written out for these code points.
    - The [resources_string] of an event and the [params] of an activity
      line are dictionaries from strings to strings: [gmap string string].
    - [unique_sessions_viewed] is a [gset string].
    - [user_events] is a [defaultdict(list)] that is iterated in insertion
      order: an association list keyed by the user id, in order of first
      appearance.
    - [list.sort(key=...)] is stable; it is modelled by a stable insertion
      sort on the timestamp. *)

From Stdlib Require Import ZArith String Ascii List Permutation Sorted Lia.
From stdpp Require Import base option list gmap strings.

Local Open Scope string_scope.
Local Open Scope Z_scope.
Local Open Scope list_scope.

(** ** Characters and the regular expressions of [parse_activity] *)

Module Re.

(** Code point of a character. *)
Definition code (c : ascii) : N := N_of_ascii c.

Definition between (lo hi n : N) : bool := ((lo <=? n) && (n <=? hi))%N.

(** [\s] on a [str] pattern: the Unicode white space below 256. *)
Definition is_space (c : ascii) : bool :=
  let n := code c in
  between 9 13 n || between 28 32 n || (n =? 133)%N || (n =? 160)%N.

(** [\S]. *)
Definition non_space (c : ascii) : bool := negb (is_space c).

(** [\w] on a [str] pattern: alphanumeric code points below 256, and [_]. *)
Definition is_word (c : ascii) : bool :=
  let n := code c in
  between 48 57 n || between 65 90 n || (n =? 95)%N || between 97 122 n
  || (n =? 170)%N || between 178 179 n || (n =? 181)%N || between 185 186 n
  || between 188 190 n || between 192 214 n || between 216 246 n
  || between 248 255 n.

(** [.] without DOTALL: everything but the line feed. *)
Definition is_dot (c : ascii) : bool := negb (code c =? 10)%N.

(** The longest prefix of [s] whose characters satisfy [p], and the rest:
    what a greedy [p+] or [p*] consumes when nothing after it can make it
    give characters back. *)
Fixpoint span (p : ascii -> bool) (s : string) : string * string :=
  match s with
  | EmptyString => (EmptyString, EmptyString)
  | String c s' =>
      if p c then let '(a, b) := span p s' in (String c a, b)
      else (EmptyString, s)
  end.

(** [s] without its prefix [p], when it has it. *)
Fixpoint strip_prefix (p s : string) : option string :=
  match p, s with
  | EmptyString, _ => Some s
  | String a p', String b s' =>
      if Ascii.eqb a b then strip_prefix p' s' else None
  | String _ _, EmptyString => None
  end.

Definition is_empty (s : string) : bool :=
  match s with EmptyString => true | _ => false end.

(** One attempt of the pattern [(\w+)=(\S+)] at the start of [s]: the key
    and the value.
    [\w+] takes the whole run of word characters (a shorter run is followed
    by a word character, never by [=]), [\S+] the whole run of non-space
    characters. *)
Definition match_kv (s : string) : option (string * string) :=
  let '(k, r) := span is_word s in
  if is_empty k then None
  else match r with
       | String c r' =>
           if Ascii.eqb c "="%char then
             let '(v, _) := span non_space r' in
             if is_empty v then None else Some (k, v)
           else None
       | EmptyString => None
       end.

(** [re.findall] of the key-value pattern on [s]: the matches from left to
    right, without overlap.  [skip] counts the characters of the last match that are still
    to be passed over; at [skip = 0] a match is attempted, and on failure the
    scan moves one character on. *)
Fixpoint findall_kv (skip : nat) (s : string) : list (string * string) :=
  match s with
  | EmptyString => []
  | String _ s' =>
      match skip with
      | S n => findall_kv n s'
      | O =>
          match match_kv s with
          | Some (k, v) =>
              (k, v) :: findall_kv (String.length k + String.length v) s'
          | None => findall_kv 0 s'
          end
      end
  end.

(** [re.match] of the activity pattern on [body]: the literal tag
    [[activity]], one or more [\s], group 1 = one or more [\S], any number
    of [\s], group 2 = any number of [.]; the result is groups 1 and 2. *)
Definition match_activity (body : string) : option (string * string) :=
  match strip_prefix "[activity]" body with
  | None => None
  | Some r =>
      let '(ws, r1) := span is_space r in
      if is_empty ws then None
      else
        let '(action, r2) := span non_space r1 in
        if is_empty action then None
        else
          let '(_, r3) := span is_space r2 in
          let '(params_str, _) := span is_dot r3 in
          Some (action, params_str)
  end.

End Re.

(** [d.get(k, default)] on a dictionary of strings. *)
Definition dict_get (d : gmap string string) (k dflt : string) : string :=
  default dflt (d !! k).

(** [parse_activity(body)]: the action and the parameters of an
    [[activity]] line, the empty action and no parameters for every other
    line.  Later occurrences of a key overwrite earlier ones. *)
Definition parse_activity (body : string) : string * gmap string string :=
  match Re.match_activity body with
  | None => (EmptyString, ∅)
  | Some (action, params_str) =>
      (action,
       fold_left (fun params kv => <[kv.1 := kv.2]> params)
                 (Re.findall_kv 0 params_str) ∅)
  end.

(** ** Events *)

(** One telemetry record (one line of the JSONL input). *)
Record Event := {
  timestamp : Z;
  body : string;
  resources_string : gmap string string
}.

Definition user_of (ev : Event) : string :=
  dict_get (resources_string ev) "user.id" EmptyString.

Definition service_of (ev : Event) : string :=
  dict_get (resources_string ev) "service.name" EmptyString.

(** ** Sorting by timestamp *)

(** [e] goes in front of the first element whose timestamp is not smaller:
    an element that came first in the input stays first among equals. *)
Fixpoint insert_by_timestamp (e : Event) (l : list Event) : list Event :=
  match l with
  | [] => [e]
  | x :: l' =>
      if timestamp e <=? timestamp x then e :: l
      else x :: insert_by_timestamp e l'
  end.

(** [l.sort(key=lambda e: e["timestamp"])]. *)
Definition sort_by_timestamp (l : list Event) : list Event :=
  foldr insert_by_timestamp [] l.

(** ** Debug sessions *)

Record DebugSession := {
  user_id : string;
  da_session_id : string;
  ext_session_id : string;
  start_ts : Z;
  end_ts : Z;
  events : list Event;
  step_count : Z;
  breakpoint_ops : Z;
  frame_switches : Z;
  dbt_frame_switches : Z;
  pause_count : Z;
  continue_count : Z;
  jump_count : Z;
  signal_count : Z;
  variable_examinations : Z;
  unique_sessions_viewed : gset string;
  step_start_times : list Z;
  step_durations : list Z;
  pause_start_times : list Z;
  pause_durations : list Z;
  _in_stepping : bool;
  _last_step_ts : Z;
  _is_paused : bool;
  _last_pause_ts : Z
}.

Definition set_events (v : list Event) (s : DebugSession) : DebugSession :=
  {| user_id := user_id s; da_session_id := da_session_id s; ext_session_id :=
  ext_session_id s; start_ts := start_ts s; end_ts := end_ts s; events := v;
  step_count := step_count s; breakpoint_ops := breakpoint_ops s;
  frame_switches := frame_switches s; dbt_frame_switches := dbt_frame_switches
  s; pause_count := pause_count s; continue_count := continue_count s;
  jump_count := jump_count s; signal_count := signal_count s;
  variable_examinations := variable_examinations s; unique_sessions_viewed :=
  unique_sessions_viewed s; step_start_times := step_start_times s;
  step_durations := step_durations s; pause_start_times := pause_start_times
  s; pause_durations := pause_durations s; _in_stepping := _in_stepping s;
  _last_step_ts := _last_step_ts s; _is_paused := _is_paused s; _last_pause_ts
  := _last_pause_ts s |}.

Definition set_step_count (v : Z) (s : DebugSession) : DebugSession :=
  {| user_id := user_id s; da_session_id := da_session_id s; ext_session_id :=
  ext_session_id s; start_ts := start_ts s; end_ts := end_ts s; events :=
  events s; step_count := v; breakpoint_ops := breakpoint_ops s;
  frame_switches := frame_switches s; dbt_frame_switches := dbt_frame_switches
  s; pause_count := pause_count s; continue_count := continue_count s;
  jump_count := jump_count s; signal_count := signal_count s;
  variable_examinations := variable_examinations s; unique_sessions_viewed :=
  unique_sessions_viewed s; step_start_times := step_start_times s;
  step_durations := step_durations s; pause_start_times := pause_start_times
  s; pause_durations := pause_durations s; _in_stepping := _in_stepping s;
  _last_step_ts := _last_step_ts s; _is_paused := _is_paused s; _last_pause_ts
  := _last_pause_ts s |}.

Definition set_breakpoint_ops (v : Z) (s : DebugSession) : DebugSession :=
  {| user_id := user_id s; da_session_id := da_session_id s; ext_session_id :=
  ext_session_id s; start_ts := start_ts s; end_ts := end_ts s; events :=
  events s; step_count := step_count s; breakpoint_ops := v; frame_switches :=
  frame_switches s; dbt_frame_switches := dbt_frame_switches s; pause_count :=
  pause_count s; continue_count := continue_count s; jump_count := jump_count
  s; signal_count := signal_count s; variable_examinations :=
  variable_examinations s; unique_sessions_viewed := unique_sessions_viewed s;
  step_start_times := step_start_times s; step_durations := step_durations s;
  pause_start_times := pause_start_times s; pause_durations := pause_durations
  s; _in_stepping := _in_stepping s; _last_step_ts := _last_step_ts s;
  _is_paused := _is_paused s; _last_pause_ts := _last_pause_ts s |}.

Definition set_frame_switches (v : Z) (s : DebugSession) : DebugSession :=
  {| user_id := user_id s; da_session_id := da_session_id s; ext_session_id :=
  ext_session_id s; start_ts := start_ts s; end_ts := end_ts s; events :=
  events s; step_count := step_count s; breakpoint_ops := breakpoint_ops s;
  frame_switches := v; dbt_frame_switches := dbt_frame_switches s; pause_count
  := pause_count s; continue_count := continue_count s; jump_count :=
  jump_count s; signal_count := signal_count s; variable_examinations :=
  variable_examinations s; unique_sessions_viewed := unique_sessions_viewed s;
  step_start_times := step_start_times s; step_durations := step_durations s;
  pause_start_times := pause_start_times s; pause_durations := pause_durations
  s; _in_stepping := _in_stepping s; _last_step_ts := _last_step_ts s;
  _is_paused := _is_paused s; _last_pause_ts := _last_pause_ts s |}.

Definition set_dbt_frame_switches (v : Z) (s : DebugSession) : DebugSession :=
  {| user_id := user_id s; da_session_id := da_session_id s; ext_session_id :=
  ext_session_id s; start_ts := start_ts s; end_ts := end_ts s; events :=
  events s; step_count := step_count s; breakpoint_ops := breakpoint_ops s;
  frame_switches := frame_switches s; dbt_frame_switches := v; pause_count :=
  pause_count s; continue_count := continue_count s; jump_count := jump_count
  s; signal_count := signal_count s; variable_examinations :=
  variable_examinations s; unique_sessions_viewed := unique_sessions_viewed s;
  step_start_times := step_start_times s; step_durations := step_durations s;
  pause_start_times := pause_start_times s; pause_durations := pause_durations
  s; _in_stepping := _in_stepping s; _last_step_ts := _last_step_ts s;
  _is_paused := _is_paused s; _last_pause_ts := _last_pause_ts s |}.

Definition set_pause_count (v : Z) (s : DebugSession) : DebugSession :=
  {| user_id := user_id s; da_session_id := da_session_id s; ext_session_id :=
  ext_session_id s; start_ts := start_ts s; end_ts := end_ts s; events :=
  events s; step_count := step_count s; breakpoint_ops := breakpoint_ops s;
  frame_switches := frame_switches s; dbt_frame_switches := dbt_frame_switches
  s; pause_count := v; continue_count := continue_count s; jump_count :=
  jump_count s; signal_count := signal_count s; variable_examinations :=
  variable_examinations s; unique_sessions_viewed := unique_sessions_viewed s;
  step_start_times := step_start_times s; step_durations := step_durations s;
  pause_start_times := pause_start_times s; pause_durations := pause_durations
  s; _in_stepping := _in_stepping s; _last_step_ts := _last_step_ts s;
  _is_paused := _is_paused s; _last_pause_ts := _last_pause_ts s |}.

Definition set_continue_count (v : Z) (s : DebugSession) : DebugSession :=
  {| user_id := user_id s; da_session_id := da_session_id s; ext_session_id :=
  ext_session_id s; start_ts := start_ts s; end_ts := end_ts s; events :=
  events s; step_count := step_count s; breakpoint_ops := breakpoint_ops s;
  frame_switches := frame_switches s; dbt_frame_switches := dbt_frame_switches
  s; pause_count := pause_count s; continue_count := v; jump_count :=
  jump_count s; signal_count := signal_count s; variable_examinations :=
  variable_examinations s; unique_sessions_viewed := unique_sessions_viewed s;
  step_start_times := step_start_times s; step_durations := step_durations s;
  pause_start_times := pause_start_times s; pause_durations := pause_durations
  s; _in_stepping := _in_stepping s; _last_step_ts := _last_step_ts s;
  _is_paused := _is_paused s; _last_pause_ts := _last_pause_ts s |}.

Definition set_jump_count (v : Z) (s : DebugSession) : DebugSession :=
  {| user_id := user_id s; da_session_id := da_session_id s; ext_session_id :=
  ext_session_id s; start_ts := start_ts s; end_ts := end_ts s; events :=
  events s; step_count := step_count s; breakpoint_ops := breakpoint_ops s;
  frame_switches := frame_switches s; dbt_frame_switches := dbt_frame_switches
  s; pause_count := pause_count s; continue_count := continue_count s;
  jump_count := v; signal_count := signal_count s; variable_examinations :=
  variable_examinations s; unique_sessions_viewed := unique_sessions_viewed s;
  step_start_times := step_start_times s; step_durations := step_durations s;
  pause_start_times := pause_start_times s; pause_durations := pause_durations
  s; _in_stepping := _in_stepping s; _last_step_ts := _last_step_ts s;
  _is_paused := _is_paused s; _last_pause_ts := _last_pause_ts s |}.

Definition set_variable_examinations (v : Z) (s : DebugSession) : DebugSession :=
  {| user_id := user_id s; da_session_id := da_session_id s; ext_session_id :=
  ext_session_id s; start_ts := start_ts s; end_ts := end_ts s; events :=
  events s; step_count := step_count s; breakpoint_ops := breakpoint_ops s;
  frame_switches := frame_switches s; dbt_frame_switches := dbt_frame_switches
  s; pause_count := pause_count s; continue_count := continue_count s;
  jump_count := jump_count s; signal_count := signal_count s;
  variable_examinations := v; unique_sessions_viewed := unique_sessions_viewed
  s; step_start_times := step_start_times s; step_durations := step_durations
  s; pause_start_times := pause_start_times s; pause_durations :=
  pause_durations s; _in_stepping := _in_stepping s; _last_step_ts :=
  _last_step_ts s; _is_paused := _is_paused s; _last_pause_ts :=
  _last_pause_ts s |}.

Definition set_unique_sessions_viewed (v : gset string) (s : DebugSession) : DebugSession :=
  {| user_id := user_id s; da_session_id := da_session_id s; ext_session_id :=
  ext_session_id s; start_ts := start_ts s; end_ts := end_ts s; events :=
  events s; step_count := step_count s; breakpoint_ops := breakpoint_ops s;
  frame_switches := frame_switches s; dbt_frame_switches := dbt_frame_switches
  s; pause_count := pause_count s; continue_count := continue_count s;
  jump_count := jump_count s; signal_count := signal_count s;
  variable_examinations := variable_examinations s; unique_sessions_viewed :=
  v; step_start_times := step_start_times s; step_durations := step_durations
  s; pause_start_times := pause_start_times s; pause_durations :=
  pause_durations s; _in_stepping := _in_stepping s; _last_step_ts :=
  _last_step_ts s; _is_paused := _is_paused s; _last_pause_ts :=
  _last_pause_ts s |}.

Definition set_step_durations (v : list Z) (s : DebugSession) : DebugSession :=
  {| user_id := user_id s; da_session_id := da_session_id s; ext_session_id :=
  ext_session_id s; start_ts := start_ts s; end_ts := end_ts s; events :=
  events s; step_count := step_count s; breakpoint_ops := breakpoint_ops s;
  frame_switches := frame_switches s; dbt_frame_switches := dbt_frame_switches
  s; pause_count := pause_count s; continue_count := continue_count s;
  jump_count := jump_count s; signal_count := signal_count s;
  variable_examinations := variable_examinations s; unique_sessions_viewed :=
  unique_sessions_viewed s; step_start_times := step_start_times s;
  step_durations := v; pause_start_times := pause_start_times s;
  pause_durations := pause_durations s; _in_stepping := _in_stepping s;
  _last_step_ts := _last_step_ts s; _is_paused := _is_paused s; _last_pause_ts
  := _last_pause_ts s |}.

Definition set_pause_durations (v : list Z) (s : DebugSession) : DebugSession :=
  {| user_id := user_id s; da_session_id := da_session_id s; ext_session_id :=
  ext_session_id s; start_ts := start_ts s; end_ts := end_ts s; events :=
  events s; step_count := step_count s; breakpoint_ops := breakpoint_ops s;
  frame_switches := frame_switches s; dbt_frame_switches := dbt_frame_switches
  s; pause_count := pause_count s; continue_count := continue_count s;
  jump_count := jump_count s; signal_count := signal_count s;
  variable_examinations := variable_examinations s; unique_sessions_viewed :=
  unique_sessions_viewed s; step_start_times := step_start_times s;
  step_durations := step_durations s; pause_start_times := pause_start_times
  s; pause_durations := v; _in_stepping := _in_stepping s; _last_step_ts :=
  _last_step_ts s; _is_paused := _is_paused s; _last_pause_ts :=
  _last_pause_ts s |}.

Definition set_in_stepping (v : bool) (s : DebugSession) : DebugSession :=
  {| user_id := user_id s; da_session_id := da_session_id s; ext_session_id :=
  ext_session_id s; start_ts := start_ts s; end_ts := end_ts s; events :=
  events s; step_count := step_count s; breakpoint_ops := breakpoint_ops s;
  frame_switches := frame_switches s; dbt_frame_switches := dbt_frame_switches
  s; pause_count := pause_count s; continue_count := continue_count s;
  jump_count := jump_count s; signal_count := signal_count s;
  variable_examinations := variable_examinations s; unique_sessions_viewed :=
  unique_sessions_viewed s; step_start_times := step_start_times s;
  step_durations := step_durations s; pause_start_times := pause_start_times
  s; pause_durations := pause_durations s; _in_stepping := v; _last_step_ts :=
  _last_step_ts s; _is_paused := _is_paused s; _last_pause_ts :=
  _last_pause_ts s |}.

Definition set_last_step_ts (v : Z) (s : DebugSession) : DebugSession :=
  {| user_id := user_id s; da_session_id := da_session_id s; ext_session_id :=
  ext_session_id s; start_ts := start_ts s; end_ts := end_ts s; events :=
  events s; step_count := step_count s; breakpoint_ops := breakpoint_ops s;
  frame_switches := frame_switches s; dbt_frame_switches := dbt_frame_switches
  s; pause_count := pause_count s; continue_count := continue_count s;
  jump_count := jump_count s; signal_count := signal_count s;
  variable_examinations := variable_examinations s; unique_sessions_viewed :=
  unique_sessions_viewed s; step_start_times := step_start_times s;
  step_durations := step_durations s; pause_start_times := pause_start_times
  s; pause_durations := pause_durations s; _in_stepping := _in_stepping s;
  _last_step_ts := v; _is_paused := _is_paused s; _last_pause_ts :=
  _last_pause_ts s |}.

Definition set_is_paused (v : bool) (s : DebugSession) : DebugSession :=
  {| user_id := user_id s; da_session_id := da_session_id s; ext_session_id :=
  ext_session_id s; start_ts := start_ts s; end_ts := end_ts s; events :=
  events s; step_count := step_count s; breakpoint_ops := breakpoint_ops s;
  frame_switches := frame_switches s; dbt_frame_switches := dbt_frame_switches
  s; pause_count := pause_count s; continue_count := continue_count s;
  jump_count := jump_count s; signal_count := signal_count s;
  variable_examinations := variable_examinations s; unique_sessions_viewed :=
  unique_sessions_viewed s; step_start_times := step_start_times s;
  step_durations := step_durations s; pause_start_times := pause_start_times
  s; pause_durations := pause_durations s; _in_stepping := _in_stepping s;
  _last_step_ts := _last_step_ts s; _is_paused := v; _last_pause_ts :=
  _last_pause_ts s |}.

Definition set_last_pause_ts (v : Z) (s : DebugSession) : DebugSession :=
  {| user_id := user_id s; da_session_id := da_session_id s; ext_session_id :=
  ext_session_id s; start_ts := start_ts s; end_ts := end_ts s; events :=
  events s; step_count := step_count s; breakpoint_ops := breakpoint_ops s;
  frame_switches := frame_switches s; dbt_frame_switches := dbt_frame_switches
  s; pause_count := pause_count s; continue_count := continue_count s;
  jump_count := jump_count s; signal_count := signal_count s;
  variable_examinations := variable_examinations s; unique_sessions_viewed :=
  unique_sessions_viewed s; step_start_times := step_start_times s;
  step_durations := step_durations s; pause_start_times := pause_start_times
  s; pause_durations := pause_durations s; _in_stepping := _in_stepping s;
  _last_step_ts := _last_step_ts s; _is_paused := _is_paused s; _last_pause_ts
  := v |}.
(** [DebugSession(user_id=uid, da_session_id=da_sid, start_ts=..., end_ts=...)]:
    every other field at its default. *)
Definition new_session (uid da_sid : string) (init_ts end_ts_ : Z) : DebugSession :=
  {| user_id := uid; da_session_id := da_sid; ext_session_id := EmptyString;
     start_ts := init_ts; end_ts := end_ts_; events := [];
     step_count := 0; breakpoint_ops := 0; frame_switches := 0;
     dbt_frame_switches := 0; pause_count := 0; continue_count := 0;
     jump_count := 0; signal_count := 0; variable_examinations := 0;
     unique_sessions_viewed := ∅;
     step_start_times := []; step_durations := [];
     pause_start_times := []; pause_durations := [];
     _in_stepping := false; _last_step_ts := 0;
     _is_paused := false; _last_pause_ts := 0 |}.

(** ** The session interpreter: [process_session] *)

Module Interp.

(** [action in ("step_over", "step_in", "step_out")]. *)
Definition is_step (action : string) : bool :=
  String.eqb action "step_over" || String.eqb action "step_in"
  || String.eqb action "step_out".

(** [reason in ("end-stepping-range", "function-finished")]. *)
Definition ends_stepping (reason : string) : bool :=
  String.eqb reason "end-stepping-range" || String.eqb reason "function-finished".

(** [action in ("reverse_continue", "step_back")]. *)
Definition is_jump (action : string) : bool :=
  String.eqb action "reverse_continue" || String.eqb action "step_back".

(** Track debuggee sessions from any event carrying [session=]. *)
Definition track_debuggee (params : gmap string string) (session : DebugSession)
  : DebugSession :=
  let sess_num := dict_get params "session" EmptyString in
  if negb (Re.is_empty sess_num) && negb (String.eqb sess_num "undefined") then
    set_unique_sessions_viewed ({[sess_num]} ∪ unique_sessions_viewed session) session
  else session.

(** Step operations: count, and open a stepping interval if none is open. *)
Definition step_operation (action : string) (ts : Z) (session : DebugSession)
  : DebugSession :=
  if is_step action then
    let session := set_step_count (step_count session + 1) session in
    if negb (_in_stepping session) then
      set_last_step_ts ts (set_in_stepping true session)
    else session
  else session.

(** Stop events end a stepping operation, and start a pause. *)
Definition stop_event (action svc : string) (params : gmap string string)
    (ts : Z) (session : DebugSession) : DebugSession :=
  if String.eqb action "stop" && String.eqb svc "ddb-da" then
    let reason := dict_get params "reason" EmptyString in
    let session :=
      if ends_stepping reason && _in_stepping session then
        set_in_stepping false
          (set_step_durations
             (step_durations session ++ [ts - _last_step_ts session]) session)
      else session in
    if negb (_is_paused session) then
      set_last_pause_ts ts (set_is_paused true session)
    else session
  else session.

(** Continue ends a pause. *)
Definition continue_event (action svc : string) (ts : Z) (session : DebugSession)
  : DebugSession :=
  if String.eqb action "continue" && String.eqb svc "ddb-da" then
    let session :=
      if _is_paused session then
        set_is_paused false
          (set_pause_durations
             (pause_durations session ++ [ts - _last_pause_ts session]) session)
      else session in
    set_continue_count (continue_count session + 1) session
  else session.

(** A step resumes from a pause. *)
Definition step_resume (action : string) (ts : Z) (session : DebugSession)
  : DebugSession :=
  if is_step action && _is_paused session then
    set_is_paused false
      (set_pause_durations
         (pause_durations session ++ [ts - _last_pause_ts session]) session)
  else session.

(** Breakpoint operations. *)
Definition breakpoint_operation (action : string) (session : DebugSession)
  : DebugSession :=
  if String.eqb action "set_breakpoints" then
    set_breakpoint_ops (breakpoint_ops session + 1) session
  else session.

(** Frame switches, and those after a boundary. *)
Definition frame_switch (action : string) (params : gmap string string)
    (session : DebugSession) : DebugSession :=
  if String.eqb action "select_frame" then
    let session := set_frame_switches (frame_switches session + 1) session in
    let after_boundary := dict_get params "after_boundary" "false" in
    if String.eqb after_boundary "true" then
      set_dbt_frame_switches (dbt_frame_switches session + 1) session
    else session
  else session.

(** Pause. *)
Definition pause_action (action : string) (session : DebugSession) : DebugSession :=
  if String.eqb action "pause" then
    set_pause_count (pause_count session + 1) session
  else session.

(** Jumps. *)
Definition jump_action (action : string) (session : DebugSession) : DebugSession :=
  if is_jump action then set_jump_count (jump_count session + 1) session
  else session.

(** Variable examination: [expand_variable], then [evaluate]. *)
Definition variable_examination (action : string) (session : DebugSession)
  : DebugSession :=
  let session :=
    if String.eqb action "expand_variable" then
      set_variable_examinations (variable_examinations session + 1) session
    else session in
  if String.eqb action "evaluate" then
    set_variable_examinations (variable_examinations session + 1) session
  else session.

(** The body of the loop of [process_session] for one event: the blocks of
    the source, in the order of the source. *)
Definition handle_event (session : DebugSession) (ev : Event) : DebugSession :=
  let svc := service_of ev in
  let ts := timestamp ev in
  let '(action, params) := parse_activity (body ev) in
  if Re.is_empty action then session
  else
    let session := track_debuggee params session in
    let session := step_operation action ts session in
    let session := stop_event action svc params ts session in
    let session := continue_event action svc ts session in
    let session := step_resume action ts session in
    let session := breakpoint_operation action session in
    let session := frame_switch action params session in
    let session := pause_action action session in
    let session := jump_action action session in
    variable_examination action session.

(** The loop over a list of events. *)
Definition run_events (evs : list Event) (session : DebugSession) : DebugSession :=
  fold_left handle_event evs session.

End Interp.

(** [process_session(session)]: sort the session's events in place, then
    interpret them one by one. *)
Definition process_session (session : DebugSession) : DebugSession :=
  let sorted := sort_by_timestamp (events session) in
  Interp.run_events sorted (set_events sorted session).

(** The session after the first [n] events of the pass. *)
Definition process_prefix (n : nat) (session : DebugSession) : DebugSession :=
  let sorted := sort_by_timestamp (events session) in
  Interp.run_events (firstn n sorted) (set_events sorted session).

(** ** The session builder: [build_debug_sessions] *)

Module Builder.

(** [user_events[uid].append(ev)] on the insertion-ordered dictionary. *)
Fixpoint append_user_event (uid : string) (ev : Event)
    (user_events : list (string * list Event)) : list (string * list Event) :=
  match user_events with
  | [] => [(uid, [ev])]
  | (u, evs) :: rest =>
      if String.eqb u uid then (u, evs ++ [ev]) :: rest
      else (u, evs) :: append_user_event uid ev rest
  end.

(** The first loop: events without a user id are dropped, the others are
    grouped by user id. *)
Definition group_by_user (events_ : list Event) : list (string * list Event) :=
  fold_left
    (fun user_events ev =>
       let uid := user_of ev in
       if negb (Re.is_empty uid) then append_user_event uid ev user_events
       else user_events)
    events_ [].

(** An adapter initialisation marker. *)
Definition is_da_init (ev : Event) : bool :=
  String.eqb (service_of ev) "ddb-da"
  && String.prefix "[OTel] Debugger Adapter initialized" (body ev).

(** A stop marker of the extension. *)
Definition is_ext_stop (ev : Event) : bool :=
  String.eqb (service_of ev) "ddb-ext"
  && String.eqb (body ev) "[activity] debug_session_stopped".

(** A stop marker of the API server. *)
Definition is_api_stop (ev : Event) : bool :=
  String.eqb (service_of ev) "ddb" && String.eqb (body ev) "API server stopped".

(** The marker loop: [(da_inits, stop_events)], each in the order of [evs]. *)
Fixpoint collect_markers (evs : list Event) : list Event * list Event :=
  match evs with
  | [] => ([], [])
  | ev :: rest =>
      let '(da_inits, stop_events) := collect_markers rest in
      if is_da_init ev then (ev :: da_inits, stop_events)
      else if is_ext_stop ev then (da_inits, ev :: stop_events)
      else if is_api_stop ev then (da_inits, ev :: stop_events)
      else (da_inits, stop_events)
  end.

(** [min] of two timestamps, [None] being infinity. *)
Definition min_inf (a b : option Z) : option Z :=
  match a, b with
  | Some x, Some y => Some (Z.min x y)
  | Some x, None => Some x
  | None, Some y => Some y
  | None, None => None
  end.

(** [a <= b] on timestamps, [None] being infinity. *)
Definition le_inf (a b : option Z) : bool :=
  match a, b with
  | Some x, Some y => x <=? y
  | Some _, None => true
  | None, Some _ => false
  | None, None => true
  end.

(** The [while] loop over the stop markers.  [pending] is
    [stop_events[stop_idx:]]: the loop runs while it is not empty, stops at
    the first marker later than [init_ts] and moves one marker on otherwise.
    The result is the scan position and [next_stop_ts]. *)
Fixpoint scan_stops (init_ts : Z) (pending : list Event) (stop_idx : nat)
  : nat * option Z :=
  match pending with
  | [] => (stop_idx, None)
  | st :: pending' =>
      if timestamp st >? init_ts then (stop_idx, Some (timestamp st))
      else scan_stops init_ts pending' (S stop_idx)
  end.

(** The pairing of one init marker: the end candidate and the scan position
    after it. *)
Definition pair_step (stop_events : list Event) (init_ts : Z)
    (next_init_ts : option Z) (stop_idx : nat) : option Z * nat :=
  let '(stop_idx, next_stop_ts) :=
    scan_stops init_ts (drop stop_idx stop_events) stop_idx in
  let end_candidate := min_inf next_init_ts next_stop_ts in
  let stop_idx :=
    if le_inf next_stop_ts next_init_ts && bool_decide (next_stop_ts <> None)
    then S stop_idx else stop_idx in
  (end_candidate, stop_idx).

(** [da_inits[i + 1]["timestamp"] if i + 1 < len(da_inits) else inf], the
    init markers after the current one being [rest]. *)
Definition next_init_of (rest : list Event) : option Z :=
  match rest with
  | nxt :: _ => Some (timestamp nxt)
  | [] => None
  end.

(** [evs[-1]["timestamp"]].  The list is never empty where this is used: it
    holds the current init marker. *)
Definition last_timestamp (evs : list Event) : Z :=
  match last evs with
  | Some ev => timestamp ev
  | None => 0
  end.

(** The events of [evs] in the window [[init_ts, end_ts]]. *)
Definition in_window (init_ts end_ts_ : Z) (ev : Event) : bool :=
  (init_ts <=? timestamp ev) && (timestamp ev <=? end_ts_).

(** The loop over the init markers of one user, from scan position
    [stop_idx]. *)
Fixpoint pair_inits (uid : string) (evs stop_events da_inits : list Event)
    (stop_idx : nat) : list DebugSession :=
  match da_inits with
  | [] => []
  | init_ev :: rest =>
      let init_ts := timestamp init_ev in
      let da_sid := dict_get (resources_string init_ev) "session.id" EmptyString in
      let '(end_candidate, stop_idx) :=
        pair_step stop_events init_ts (next_init_of rest) stop_idx in
      let end_ts_ :=
        match end_candidate with
        | Some t => t
        | None => last_timestamp evs
        end in
      let session := new_session uid da_sid init_ts end_ts_ in
      let session :=
        set_events (events session ++ List.filter (in_window init_ts end_ts_) evs)
                   session in
      session :: pair_inits uid evs stop_events rest stop_idx
  end.

(** The successive values of [stop_idx]: on entry to the loop and after
    each init marker. *)
Fixpoint stop_positions (stop_events da_inits : list Event) (stop_idx : nat)
  : list nat :=
  match da_inits with
  | [] => [stop_idx]
  | init_ev :: rest =>
      stop_idx ::
      stop_positions stop_events rest
        (pair_step stop_events (timestamp init_ev) (next_init_of rest) stop_idx).2
  end.

(** The sessions of one user. *)
Definition user_sessions (uid : string) (evs : list Event) : list DebugSession :=
  let evs := sort_by_timestamp evs in
  let '(da_inits, stop_events) := collect_markers evs in
  let stop_events := sort_by_timestamp stop_events in
  pair_inits uid evs stop_events da_inits 0.

End Builder.

(** [build_debug_sessions(events)]. *)
Definition build_debug_sessions (events_ : list Event) : list DebugSession :=
  flat_map (fun '(uid, evs) => Builder.user_sessions uid evs)
           (Builder.group_by_user events_).

(** ** What the interpreter reads from an event, and what it writes *)

Module Obs.

Definition action_of (ev : Event) : string := (parse_activity (body ev)).1.
Definition params_of (ev : Event) : gmap string string := (parse_activity (body ev)).2.

(** An activity line with action [name]. *)
Definition has_action (name : string) (ev : Event) : bool :=
  String.eqb (action_of ev) name.

(** A [stop] of the adapter, a [continue] of the adapter. *)
Definition is_adapter_stop (ev : Event) : bool :=
  has_action "stop" ev && String.eqb (service_of ev) "ddb-da".
Definition is_adapter_continue (ev : Event) : bool :=
  has_action "continue" ev && String.eqb (service_of ev) "ddb-da".

(** The [reason] parameter of an event. *)
Definition reason_of (ev : Event) : string :=
  dict_get (params_of ev) "reason" EmptyString.

(** The fields outside the reach of the interpreter's loop. *)
Definition frame_of (s : DebugSession) :=
  (user_id s, da_session_id s, ext_session_id s, start_ts s, end_ts s,
   events s, signal_count s, step_start_times s, pause_start_times s).

(** The event-driven counters, in the order of the class. *)
Definition counters_of (s : DebugSession) : list Z :=
  [step_count s; breakpoint_ops s; frame_switches s; dbt_frame_switches s;
   pause_count s; continue_count s; jump_count s; variable_examinations s].

Definition bump (b : bool) : Z := if b then 1 else 0.

(** What one event adds to each counter of [counters_of]. *)
Definition event_counts (ev : Event) : list Z :=
  let a := action_of ev in
  if Re.is_empty a then [0; 0; 0; 0; 0; 0; 0; 0]
  else
    [bump (Interp.is_step a);
     bump (String.eqb a "set_breakpoints");
     bump (String.eqb a "select_frame");
     bump (String.eqb a "select_frame"
           && String.eqb (dict_get (params_of ev) "after_boundary" "false") "true");
     bump (String.eqb a "pause");
     bump (is_adapter_continue ev);
     bump (Interp.is_jump a);
     bump (String.eqb a "expand_variable") + bump (String.eqb a "evaluate")].

(** The debuggee session named by the parameters, if it counts. *)
Definition debuggee_of (params : gmap string string) : gset string :=
  let sess_num := dict_get params "session" EmptyString in
  if negb (Re.is_empty sess_num) && negb (String.eqb sess_num "undefined")
  then {[sess_num]} else ∅.

(** The debuggee sessions one event adds to [unique_sessions_viewed]. *)
Definition viewed_in (ev : Event) : gset string :=
  if Re.is_empty (action_of ev) then ∅ else debuggee_of (params_of ev).

(** The invariant of claim C2: not both intervals open. *)
Definition one_interval_open (s : DebugSession) : Prop :=
  ~ (_in_stepping s = true /\ _is_paused s = true).

(** A block that only counts: [s'] is [s] with [delta] added to the
    counters. *)
Definition counts_only (s s' : DebugSession) (delta : list Z) : Prop :=
  frame_of s' = frame_of s
  /\ counters_of s' = zip_with Z.add (counters_of s) delta
  /\ unique_sessions_viewed s' = unique_sessions_viewed s
  /\ _in_stepping s' = _in_stepping s /\ _is_paused s' = _is_paused s
  /\ step_durations s' = step_durations s
  /\ pause_durations s' = pause_durations s.

(** What a list of events adds to the counters, and to the set of
    debuggee sessions. *)
Definition total_counts (evs : list Event) : list Z :=
  foldr (fun ev acc => zip_with Z.add (event_counts ev) acc)
        [0; 0; 0; 0; 0; 0; 0; 0] evs.

Definition viewed_all (evs : list Event) : gset string :=
  ⋃ (viewed_in <$> evs).

(** Order by timestamp. *)
Definition ts_le (a b : Event) : Prop := timestamp a <= timestamp b.

(** The events of [l] with timestamp [t], in the order of [l]. *)
Definition at_time (t : Z) (l : list Event) : list Event :=
  filter (fun e => timestamp e = t) l.

(** A stop of the adapter whose reason does not end stepping: it opens a
    pause and leaves an open stepping interval open. *)
Definition non_ending_stop (ev : Event) : bool :=
  is_adapter_stop ev && negb (Interp.ends_stepping (reason_of ev)).

(** An event that is not a stop of the adapter with a reason outside the
    ones that end stepping. *)
Definition stops_end_stepping (ev : Event) : Prop :=
  is_adapter_stop ev = true -> Interp.ends_stepping (reason_of ev) = true.

(** A session as the builder makes it for user [uid] with events [evs]:
    new, with the events of its window attached. *)
Definition built_by (uid : string) (evs : list Event) (s : DebugSession) : Prop :=
  s = set_events (List.filter (Builder.in_window (start_ts s) (end_ts s)) evs)
        (new_session uid (da_session_id s) (start_ts s) (end_ts s)).

(** The groups [g] after the events [l]: one per user id, each with that
    user's events in their order in [l]; no group for the empty id. *)
Definition grouped (l : list Event) (g : list (string * list Event)) : Prop :=
  NoDup (g.*1)
  /\ (forall u evs, (u, evs) ∈ g ->
        Re.is_empty u = false /\ evs = filter (fun e => user_of e = u) l)
  /\ (forall e, e ∈ l -> Re.is_empty (user_of e) = false -> user_of e ∈ g.*1).

End Obs.

(** ** Concrete inputs *)

Module Scenario.

(** An event of user [uid] from service [svc]. *)
Definition mk_event (ts : Z) (svc uid body_ : string) : Event :=
  {| timestamp := ts; body := body_;
     resources_string := {[ "service.name" := svc; "user.id" := uid ]} |}.

Definition init_at (ts : Z) : Event :=
  mk_event ts "ddb-da" "u1" "[OTel] Debugger Adapter initialized".

Definition da_activity (ts : Z) (line : string) : Event :=
  mk_event ts "ddb-da" "u1" line.

(** Scenario A of the specification. *)
Definition scenario_A : list Event :=
  [ init_at 0;
    da_activity 10 "[activity] step_over";
    da_activity 50 "[activity] stop reason=end-stepping-range";
    da_activity 60 "[activity] continue" ].

(** Two init markers and nothing else. *)
Definition two_inits : list Event := [ init_at 0; init_at 10 ].

(** A step that is stopped by a breakpoint. *)
Definition step_then_breakpoint : list Event :=
  [ init_at 0;
    da_activity 10 "[activity] step_over";
    da_activity 20 "[activity] stop reason=breakpoint-hit" ].

(** A stop by a breakpoint while no stepping interval is open, then a step
    that runs to its end. *)
Definition stop_outside_stepping : list Event :=
  [ init_at 0;
    da_activity 5 "[activity] stop reason=breakpoint-hit";
    da_activity 10 "[activity] step_over";
    da_activity 20 "[activity] stop reason=end-stepping-range";
    da_activity 30 "[activity] continue" ].

(** One step. *)
Definition one_step : list Event :=
  [ init_at 0; da_activity 10 "[activity] step_over" ].

(** A step and the stop that ends it, at the same timestamp. *)
Definition step_over_10 : Event := da_activity 10 "[activity] step_over".
Definition stop_10 : Event :=
  da_activity 10 "[activity] stop reason=end-stepping-range".
Definition tie_session (evs : list Event) : DebugSession :=
  set_events evs (new_session "u1" EmptyString 0 10).

(** An [evaluate] that names no debuggee session. *)
Definition evaluate_undefined : Event :=
  da_activity 5 "[activity] evaluate session=undefined expression=x".

(** An init marker, a stop marker at time 10 and the next init marker at
    time 10, then one more stop marker. *)
Definition stop_at (ts : Z) : Event :=
  mk_event ts "ddb-ext" "u1" "[activity] debug_session_stopped".
Definition tie_inits : list Event := [ init_at 0; init_at 10 ].
Definition tie_stops : list Event := [ stop_at 10; stop_at 30 ].

End Scenario.

(** ** The reporting layer: the reductions of [main] *)

Module Report.

(** The sessions after the interpreter loop of [main]:
    [sessions = build_debug_sessions(events)], then [process_session(s)]
    for each of them. *)
Definition processed_sessions (events_ : list Event) : list DebugSession :=
  map process_session (build_debug_sessions events_).

(** The condition of the [active_sessions] comprehension. *)
Definition is_active (s : DebugSession) : bool :=
  (step_count s >? 0) || (breakpoint_ops s >? 0) || (frame_switches s >? 0).

Definition active_sessions (sessions : list DebugSession) : list DebugSession :=
  List.filter is_active sessions.

(** [24 * 3600 * 1e9]: a float, but an integer below 2^53, and Python
    compares an [int] with a [float] exactly. *)
Definition MAX_REASONABLE_DURATION_NS : Z := 24 * 3600 * 1000000000.

Definition exceeds_max (s : DebugSession) : bool :=
  end_ts s - start_ts s >? MAX_REASONABLE_DURATION_NS.

(** [sum(1 for s in active_sessions if ... > MAX_REASONABLE_DURATION_NS)]. *)
Definition outlier_count (active : list DebugSession) : Z :=
  Z.of_nat (length (List.filter exceeds_max active)).

(** [[s for s in active_sessions if ... <= MAX_REASONABLE_DURATION_NS]]. *)
Definition time_filtered (active : list DebugSession) : list DebugSession :=
  List.filter (fun s => end_ts s - start_ts s <=? MAX_REASONABLE_DURATION_NS) active.

(** [sum(1 for s in active_sessions if len(s.unique_sessions_viewed) > 1)]. *)
Definition multi_session_count (active : list DebugSession) : Z :=
  Z.of_nat (length (List.filter
                      (fun s => (1 <? size (unique_sessions_viewed s))%nat) active)).

(** The list built by [all_step_durations.extend(s.step_durations)]. *)
Definition all_step_durations (active : list DebugSession) : list Z :=
  flat_map step_durations active.

(** [sum(values)] on a list of integers. *)
Definition sum_list (values : list Z) : Z := fold_left Z.add values 0.

End Report.

(** ** Vocabulary of the further properties *)

Module More.

(** The characters of a string satisfy [p]. *)
Definition all_chars (p : ascii -> bool) (s : string) : Prop :=
  Forall (fun c => p c = true) (list_ascii_of_string s).

(** A key and a value as the key-value pattern matches them: a non-empty
    run of word characters, a non-empty run of non-space characters. *)
Definition well_formed_pair (kv : string * string) : Prop :=
  kv.1 <> EmptyString /\ all_chars Re.is_word kv.1
  /\ kv.2 <> EmptyString /\ all_chars Re.non_space kv.2.

(** The number of events that satisfy [p]. *)
Definition count_events (p : Event -> bool) (evs : list Event) : Z :=
  Z.of_nat (length (List.filter p evs)).

(** The events behind each counter. *)
Definition is_step_event (ev : Event) : bool := Interp.is_step (Obs.action_of ev).
Definition is_breakpoint_event (ev : Event) : bool := Obs.has_action "set_breakpoints" ev.
Definition is_frame_event (ev : Event) : bool := Obs.has_action "select_frame" ev.
Definition is_dbt_frame_event (ev : Event) : bool :=
  Obs.has_action "select_frame" ev
  && String.eqb (dict_get (Obs.params_of ev) "after_boundary" "false") "true".
Definition is_pause_event (ev : Event) : bool := Obs.has_action "pause" ev.
Definition is_jump_event (ev : Event) : bool := Interp.is_jump (Obs.action_of ev).
Definition is_expand_event (ev : Event) : bool := Obs.has_action "expand_variable" ev.
Definition is_evaluate_event (ev : Event) : bool := Obs.has_action "evaluate" ev.

(** The vector of the numbers of events behind the counters, in the order
    of [Obs.counters_of]. *)
Definition counts_of (evs : list Event) : list Z :=
  [count_events is_step_event evs; count_events is_breakpoint_event evs;
   count_events is_frame_event evs; count_events is_dbt_frame_event evs;
   count_events is_pause_event evs; count_events Obs.is_adapter_continue evs;
   count_events is_jump_event evs;
   count_events is_expand_event evs + count_events is_evaluate_event evs].

(** The events of all groups together. *)
Definition grouped_events (g : list (string * list Event)) : list Event :=
  flat_map snd g.

(** A marker of the builder: an init marker or one of the stop markers. *)
Definition is_marker (ev : Event) : bool :=
  Builder.is_da_init ev || Builder.is_ext_stop ev || Builder.is_api_stop ev.

(** An init marker that the builder does not drop. *)
Definition opens_session (ev : Event) : bool :=
  negb (Re.is_empty (user_of ev)) && Builder.is_da_init ev.

(** One kind of interval (stepping or pause) of a session whose events lie
    at or after [t0], when the events up to time [now] have been handled:
    the completed durations are not negative, and together with the time
    since an open interval started they fit between [t0] and [now]. *)
Definition track_ok (t0 now : Z) (open : bool) (since : Z) (durations : list Z)
  : Prop :=
  Forall (fun d => 0 <= d) durations
  /\ (open = true -> since <= now /\ Report.sum_list durations <= since - t0)
  /\ (open = false -> Report.sum_list durations <= now - t0).

Definition intervals_ok (t0 now : Z) (s : DebugSession) : Prop :=
  track_ok t0 now (_in_stepping s) (_last_step_ts s) (step_durations s)
  /\ track_ok t0 now (_is_paused s) (_last_pause_ts s) (pause_durations s).

(** Every stepping interval, completed or open, was opened by a counted
    step. *)
Definition steps_cover_intervals (s : DebugSession) : Prop :=
  Z.of_nat (length (step_durations s)) + Obs.bump (_in_stepping s) <= step_count s.

End More.

(** * Properties *)

(** ** The interpreter, block by block *)

Import Obs.

Ltac sess_simpl :=
  unfold frame_of, counters_of;
  cbn [user_id da_session_id ext_session_id start_ts end_ts events step_count
       breakpoint_ops frame_switches dbt_frame_switches pause_count
       continue_count jump_count signal_count variable_examinations
       unique_sessions_viewed step_start_times step_durations
       pause_start_times pause_durations _in_stepping _last_step_ts
       _is_paused _last_pause_ts
       set_events set_step_count set_breakpoint_ops set_frame_switches
       set_dbt_frame_switches set_pause_count set_continue_count
       set_jump_count set_variable_examinations set_unique_sessions_viewed
       set_step_durations set_pause_durations set_in_stepping
       set_last_step_ts set_is_paused set_last_pause_ts
       bump zip_with andb orb negb].

Ltac destruct_cond b :=
  lazymatch b with
  | negb ?x => destruct_cond x
  | ?x && _ => destruct_cond x
  | ?x || _ => destruct_cond x
  | _ => destruct b eqn:?
  end.

Ltac split_ifs :=
  repeat match goal with
    | |- context [if ?b then _ else _] =>
        lazymatch b with
        | context [if _ then _ else _] => fail
        | _ => destruct_cond b; sess_simpl
        end
    end.

(** Solves the specification of one block: unfold it, take every branch. *)
Ltac block_spec :=
  intros; sess_simpl; split_ifs;
  repeat split; sess_simpl; try reflexivity;
  try (rewrite ?orb_false_r, ?orb_true_r, ?andb_true_r, ?andb_false_r; congruence);
  try (repeat (match goal with |- _ :: _ = _ :: _ => f_equal end); lia);
  try (eexists; reflexivity).

Section Blocks.
Variables (a svc : string) (p : gmap string string) (ts : Z) (s : DebugSession).

Lemma track_debuggee_spec :
  let s' := Interp.track_debuggee p s in
  frame_of s' = frame_of s
  /\ counters_of s' = counters_of s
  /\ unique_sessions_viewed s' = unique_sessions_viewed s ∪ debuggee_of p
  /\ _in_stepping s' = _in_stepping s /\ _is_paused s' = _is_paused s
  /\ step_durations s' = step_durations s
  /\ pause_durations s' = pause_durations s.
Proof. unfold Interp.track_debuggee, debuggee_of. block_spec.
  all: first [apply (comm_L (∪)) | symmetry; apply (right_id_L ∅ (∪))].
Qed.

Lemma step_operation_spec :
  let s' := Interp.step_operation a ts s in
  frame_of s' = frame_of s
  /\ counters_of s' =
       zip_with Z.add (counters_of s) [bump (Interp.is_step a); 0; 0; 0; 0; 0; 0; 0]
  /\ unique_sessions_viewed s' = unique_sessions_viewed s
  /\ _in_stepping s' = _in_stepping s || Interp.is_step a
  /\ _is_paused s' = _is_paused s
  /\ step_durations s' = step_durations s
  /\ pause_durations s' = pause_durations s.
Proof. unfold Interp.step_operation. block_spec. Qed.

Lemma stop_event_spec :
  let s' := Interp.stop_event a svc p ts s in
  let stops := String.eqb a "stop" && String.eqb svc "ddb-da" in
  frame_of s' = frame_of s
  /\ counters_of s' = counters_of s
  /\ unique_sessions_viewed s' = unique_sessions_viewed s
  /\ _in_stepping s' =
       _in_stepping s
       && negb (stops && Interp.ends_stepping (dict_get p "reason" EmptyString))
  /\ _is_paused s' = _is_paused s || stops
  /\ step_durations s `prefix_of` step_durations s'
  /\ pause_durations s' = pause_durations s.
Proof. unfold Interp.stop_event. block_spec. Qed.

Lemma continue_event_spec :
  let s' := Interp.continue_event a svc ts s in
  let continues := String.eqb a "continue" && String.eqb svc "ddb-da" in
  frame_of s' = frame_of s
  /\ counters_of s' =
       zip_with Z.add (counters_of s) [0; 0; 0; 0; 0; bump continues; 0; 0]
  /\ unique_sessions_viewed s' = unique_sessions_viewed s
  /\ _in_stepping s' = _in_stepping s
  /\ _is_paused s' = _is_paused s && negb continues
  /\ step_durations s' = step_durations s
  /\ pause_durations s `prefix_of` pause_durations s'.
Proof. unfold Interp.continue_event. block_spec. Qed.

Lemma step_resume_spec :
  let s' := Interp.step_resume a ts s in
  frame_of s' = frame_of s
  /\ counters_of s' = counters_of s
  /\ unique_sessions_viewed s' = unique_sessions_viewed s
  /\ _in_stepping s' = _in_stepping s
  /\ _is_paused s' = _is_paused s && negb (Interp.is_step a)
  /\ step_durations s' = step_durations s
  /\ pause_durations s `prefix_of` pause_durations s'.
Proof. unfold Interp.step_resume. block_spec. Qed.

Lemma breakpoint_operation_spec :
  counts_only s (Interp.breakpoint_operation a s)
    [0; bump (String.eqb a "set_breakpoints"); 0; 0; 0; 0; 0; 0].
Proof. unfold counts_only, Interp.breakpoint_operation. block_spec. Qed.

Lemma frame_switch_spec :
  counts_only s (Interp.frame_switch a p s)
    [0; 0; bump (String.eqb a "select_frame");
     bump (String.eqb a "select_frame"
           && String.eqb (dict_get p "after_boundary" "false") "true");
     0; 0; 0; 0].
Proof. unfold counts_only, Interp.frame_switch. block_spec. Qed.

Lemma pause_action_spec :
  counts_only s (Interp.pause_action a s)
    [0; 0; 0; 0; bump (String.eqb a "pause"); 0; 0; 0].
Proof. unfold counts_only, Interp.pause_action. block_spec. Qed.

Lemma jump_action_spec :
  counts_only s (Interp.jump_action a s)
    [0; 0; 0; 0; 0; 0; bump (Interp.is_jump a); 0].
Proof. unfold counts_only, Interp.jump_action. block_spec. Qed.

Lemma variable_examination_spec :
  counts_only s (Interp.variable_examination a s)
    [0; 0; 0; 0; 0; 0; 0;
     bump (String.eqb a "expand_variable") + bump (String.eqb a "evaluate")].
Proof. unfold counts_only, Interp.variable_examination. block_spec. Qed.
End Blocks.

(** ** The interpreter, event by event *)

Lemma is_empty_true (x : string) : Re.is_empty x = true -> x = EmptyString.
Proof. destruct x; [reflexivity | discriminate]. Qed.

(** The loop body as the composition of its blocks. *)
Lemma handle_event_blocks (s : DebugSession) (ev : Event) :
  Interp.handle_event s ev =
  let a := action_of ev in
  let p := params_of ev in
  let svc := service_of ev in
  let ts := timestamp ev in
  if Re.is_empty a then s
  else
    Interp.variable_examination a
      (Interp.jump_action a
         (Interp.pause_action a
            (Interp.frame_switch a p
               (Interp.breakpoint_operation a
                  (Interp.step_resume a ts
                     (Interp.continue_event a svc ts
                        (Interp.stop_event a svc p ts
                           (Interp.step_operation a ts
                              (Interp.track_debuggee p s))))))))).
Proof.
  unfold Interp.handle_event, action_of, params_of.
  destruct (parse_activity (body ev)) as [a p]. reflexivity.
Qed.

(** What one event does to a session. *)
Lemma handle_event_spec (s : DebugSession) (ev : Event) :
  let s' := Interp.handle_event s ev in
  frame_of s' = frame_of s
  /\ counters_of s' = zip_with Z.add (counters_of s) (event_counts ev)
  /\ unique_sessions_viewed s' = unique_sessions_viewed s ∪ viewed_in ev
  /\ _in_stepping s' =
       (_in_stepping s || Interp.is_step (action_of ev))
       && negb (is_adapter_stop ev && Interp.ends_stepping (reason_of ev))
  /\ _is_paused s' =
       (_is_paused s || is_adapter_stop ev) && negb (is_adapter_continue ev)
       && negb (Interp.is_step (action_of ev))
  /\ step_durations s `prefix_of` step_durations s'
  /\ pause_durations s `prefix_of` pause_durations s'.
Proof.
  intros s'. subst s'. rewrite handle_event_blocks.
  unfold event_counts, viewed_in, is_adapter_stop, is_adapter_continue,
    has_action, reason_of.
  cbv zeta.
  destruct (Re.is_empty (action_of ev)) eqn:Hempty.
  - apply is_empty_true in Hempty. rewrite Hempty. cbn [String.eqb Interp.is_step orb andb negb].
    rewrite !orb_false_r, !andb_true_r, (right_id_L ∅ (∪)).
    repeat split; try reflexivity.
    unfold counters_of; cbn [zip_with].
    repeat (match goal with |- _ :: _ = _ :: _ => f_equal end); lia.
  - set (a := action_of ev). set (p := params_of ev).
    set (svc := service_of ev). set (ts := timestamp ev).
    pose proof (track_debuggee_spec p s) as H1. cbv zeta in H1.
    set (s1 := Interp.track_debuggee p s) in *.
    pose proof (step_operation_spec a ts s1) as H2. cbv zeta in H2.
    set (s2 := Interp.step_operation a ts s1) in *.
    pose proof (stop_event_spec a svc p ts s2) as H3. cbv zeta in H3.
    set (s3 := Interp.stop_event a svc p ts s2) in *.
    pose proof (continue_event_spec a svc ts s3) as H4. cbv zeta in H4.
    set (s4 := Interp.continue_event a svc ts s3) in *.
    pose proof (step_resume_spec a ts s4) as H5. cbv zeta in H5.
    set (s5 := Interp.step_resume a ts s4) in *.
    pose proof (breakpoint_operation_spec a s5) as H6.
    set (s6 := Interp.breakpoint_operation a s5) in *.
    pose proof (frame_switch_spec a p s6) as H7.
    set (s7 := Interp.frame_switch a p s6) in *.
    pose proof (pause_action_spec a s7) as H8.
    set (s8 := Interp.pause_action a s7) in *.
    pose proof (jump_action_spec a s8) as H9.
    set (s9 := Interp.jump_action a s8) in *.
    pose proof (variable_examination_spec a s9) as H10.
    set (s10 := Interp.variable_examination a s9) in *.
    clearbody s1 s2 s3 s4 s5 s6 s7 s8 s9 s10.
    unfold counts_only in *.
    destruct H1 as (F1 & C1 & U1 & I1 & P1 & D1 & E1).
    destruct H2 as (F2 & C2 & U2 & I2 & P2 & D2 & E2).
    destruct H3 as (F3 & C3 & U3 & I3 & P3 & D3 & E3).
    destruct H4 as (F4 & C4 & U4 & I4 & P4 & D4 & E4).
    destruct H5 as (F5 & C5 & U5 & I5 & P5 & D5 & E5).
    destruct H6 as (F6 & C6 & U6 & I6 & P6 & D6 & E6).
    destruct H7 as (F7 & C7 & U7 & I7 & P7 & D7 & E7).
    destruct H8 as (F8 & C8 & U8 & I8 & P8 & D8 & E8).
    destruct H9 as (F9 & C9 & U9 & I9 & P9 & D9 & E9).
    destruct H10 as (F10 & C10 & U10 & I10 & P10 & D10 & E10).
    repeat split.
    + congruence.
    + unfold counters_of in *. cbn [zip_with] in *. simplify_eq.
      repeat (match goal with |- _ :: _ = _ :: _ => f_equal end); lia.
    + congruence.
    + congruence.
    + congruence.
    + rewrite D10, D9, D8, D7, D6, D5, D4, <- D1, <- D2. exact D3.
    + rewrite E10, E9, E8, E7, E6, <- E1, <- E2, <- E3.
      etransitivity; eassumption.
Qed.

(** ** The stable sort *)

Section Sorting.
Implicit Types (e : Event) (l : list Event) (t : Z).

Lemma insert_by_timestamp_perm e l : insert_by_timestamp e l ≡ₚ e :: l.
Proof.
  induction l as [|x l IH]; cbn [insert_by_timestamp]; [reflexivity|].
  destruct (timestamp e <=? timestamp x); [reflexivity|].
  rewrite IH. apply perm_swap.
Qed.

Lemma sort_by_timestamp_cons e l :
  sort_by_timestamp (e :: l) = insert_by_timestamp e (sort_by_timestamp l).
Proof. reflexivity. Qed.

Lemma sort_by_timestamp_perm l : sort_by_timestamp l ≡ₚ l.
Proof.
  induction l as [|x l IH]; [reflexivity|].
  rewrite sort_by_timestamp_cons, insert_by_timestamp_perm. by constructor.
Qed.

Lemma insert_by_timestamp_sorted e l :
  StronglySorted ts_le l -> StronglySorted ts_le (insert_by_timestamp e l).
Proof.
  induction 1 as [|x l Hs IH Hx]; cbn [insert_by_timestamp].
  - repeat constructor.
  - destruct (Z.leb_spec (timestamp e) (timestamp x)) as [Hle|Hlt].
    + constructor; [by constructor|].
      constructor; [exact Hle|].
      eapply Forall_impl; [exact Hx|]. unfold ts_le. intros; lia.
    + constructor; [exact IH|].
      rewrite insert_by_timestamp_perm. constructor; [unfold ts_le; lia | exact Hx].
Qed.

Lemma sort_by_timestamp_sorted l : StronglySorted ts_le (sort_by_timestamp l).
Proof.
  induction l; [constructor|].
  rewrite sort_by_timestamp_cons. by apply insert_by_timestamp_sorted.
Qed.

(** A sorted list is left as it is. *)
Lemma sort_by_timestamp_id l : StronglySorted ts_le l -> sort_by_timestamp l = l.
Proof.
  induction 1 as [|x l Hs IH Hx]; [reflexivity|].
  rewrite sort_by_timestamp_cons, IH. destruct Hx as [|y l Hy _]; [reflexivity|].
  cbn [insert_by_timestamp]. unfold ts_le in Hy.
  destruct (Z.leb_spec (timestamp x) (timestamp y)); [reflexivity | lia].
Qed.

Lemma sort_by_timestamp_idem l :
  sort_by_timestamp (sort_by_timestamp l) = sort_by_timestamp l.
Proof. apply sort_by_timestamp_id, sort_by_timestamp_sorted. Qed.

(** Stability: events with equal timestamps keep their order. *)
Lemma at_time_insert t e l :
  at_time t (insert_by_timestamp e l) = at_time t (e :: l).
Proof.
  unfold at_time.
  induction l as [|x l IH]; cbn [insert_by_timestamp]; [reflexivity|].
  destruct (Z.leb_spec (timestamp e) (timestamp x)) as [Hle|Hlt]; [reflexivity|].
  rewrite (filter_cons _ x), IH, !filter_cons.
  repeat case_decide; try reflexivity; lia.
Qed.

Lemma at_time_sort t l : at_time t (sort_by_timestamp l) = at_time t l.
Proof.
  induction l as [|x l IH]; [reflexivity|].
  rewrite sort_by_timestamp_cons, at_time_insert. unfold at_time in *.
  by rewrite !filter_cons, IH.
Qed.

(** A list sorted by timestamp is determined by its events at each time. *)
Lemma sorted_by_at_time l1 l2 :
  StronglySorted ts_le l1 -> StronglySorted ts_le l2 ->
  (forall t, at_time t l1 = at_time t l2) -> l1 = l2.
Proof.
  intros Hs1. revert l2.
  induction Hs1 as [|a l1 Hs1 IH Ha]; intros l2 Hs2 Heq.
  - destruct l2 as [|b l2]; [reflexivity|].
    specialize (Heq (timestamp b)). unfold at_time in Heq.
    rewrite filter_nil, filter_cons_True in Heq by reflexivity. discriminate.
  - destruct Hs2 as [|b l2 Hs2 Hb].
    { specialize (Heq (timestamp a)). unfold at_time in Heq.
      rewrite filter_nil, filter_cons_True in Heq by reflexivity. discriminate. }
    assert (Hab : timestamp a = timestamp b).
    { apply Z.le_antisymm.
      - assert (Hin : b ∈ at_time (timestamp b) (a :: l1)).
        { rewrite Heq. unfold at_time. rewrite filter_cons_True by reflexivity.
          apply list_elem_of_here. }
        apply list_elem_of_filter in Hin as [_ Hin].
        apply elem_of_cons in Hin as [->|Hin]; [reflexivity|].
        rewrite Forall_forall in Ha. by apply Ha.
      - assert (Hin : a ∈ at_time (timestamp a) (b :: l2)).
        { rewrite <- Heq. unfold at_time. rewrite filter_cons_True by reflexivity.
          apply list_elem_of_here. }
        apply list_elem_of_filter in Hin as [_ Hin].
        apply elem_of_cons in Hin as [->|Hin]; [reflexivity|].
        rewrite Forall_forall in Hb. by apply Hb. }
    pose proof (Heq (timestamp a)) as H0. unfold at_time in H0.
    rewrite filter_cons_True in H0 by reflexivity.
    rewrite filter_cons_True in H0 by (symmetry; exact Hab).
    injection H0 as -> H0. f_equal.
    apply IH; [exact Hs2|]. intros t.
    destruct (decide (timestamp b = t)) as [<-|Hne]; [exact H0|].
    specialize (Heq t). unfold at_time in *.
    by rewrite !filter_cons_False in Heq by exact Hne.
Qed.

(** Two lists with the same events at each time, in the same order, sort
    to the same list. *)
Lemma sort_by_timestamp_ext l1 l2 :
  (forall t, at_time t l1 = at_time t l2) ->
  sort_by_timestamp l1 = sort_by_timestamp l2.
Proof.
  intros Heq. apply sorted_by_at_time; try apply sort_by_timestamp_sorted.
  intros t. by rewrite !at_time_sort.
Qed.
End Sorting.

(** ** The interpreter over a list of events *)

Lemma zip_add_assoc (a b c : list Z) :
  zip_with Z.add (zip_with Z.add a b) c = zip_with Z.add a (zip_with Z.add b c).
Proof.
  revert b c. induction a as [|x a IH]; intros [|y b] [|z c]; cbn; try reflexivity.
  f_equal; [lia | apply IH].
Qed.

Lemma counters_plus_zero (s : DebugSession) :
  zip_with Z.add (counters_of s) [0; 0; 0; 0; 0; 0; 0; 0] = counters_of s.
Proof.
  unfold counters_of. cbn [zip_with].
  repeat (match goal with |- _ :: _ = _ :: _ => f_equal end); lia.
Qed.

Lemma run_events_cons (e : Event) (evs : list Event) (s : DebugSession) :
  Interp.run_events (e :: evs) s = Interp.run_events evs (Interp.handle_event s e).
Proof. reflexivity. Qed.

(** What a pass over [evs] does to a session. *)
Lemma run_events_spec (evs : list Event) (s : DebugSession) :
  let s' := Interp.run_events evs s in
  frame_of s' = frame_of s
  /\ counters_of s' = zip_with Z.add (counters_of s) (total_counts evs)
  /\ unique_sessions_viewed s' = unique_sessions_viewed s ∪ viewed_all evs
  /\ step_durations s `prefix_of` step_durations s'
  /\ pause_durations s `prefix_of` pause_durations s'.
Proof.
  revert s. induction evs as [|e evs IH]; intros s; cbv zeta.
  - cbn [Interp.run_events fold_left total_counts foldr].
    rewrite counters_plus_zero. unfold viewed_all. cbn.
    rewrite (right_id_L ∅ (∪)). repeat split; reflexivity.
  - rewrite run_events_cons.
    destruct (IH (Interp.handle_event s e)) as (F & C & U & D & E).
    destruct (handle_event_spec s e) as (F0 & C0 & U0 & _ & _ & D0 & E0).
    repeat split.
    + congruence.
    + rewrite C, C0. cbn [total_counts foldr]. apply zip_add_assoc.
    + rewrite U, U0. unfold viewed_all. cbn [fmap list_fmap union_list foldr].
      symmetry. apply (assoc_L (∪)).
    + etransitivity; eassumption.
    + etransitivity; eassumption.
Qed.

(** The two open-interval flags, when every stop of the adapter carries a
    reason that ends stepping. *)
Lemma is_step_not_stop (a : string) :
  Interp.is_step a = true -> String.eqb a "stop" = false.
Proof.
  intros H. destruct (String.eqb_spec a "stop") as [->|]; [|reflexivity].
  discriminate H.
Qed.

Lemma handle_event_one_interval (s : DebugSession) (ev : Event) :
  stops_end_stepping ev -> one_interval_open s ->
  one_interval_open (Interp.handle_event s ev).
Proof.
  unfold stops_end_stepping, one_interval_open. intros Hev Hs.
  destruct (handle_event_spec s ev) as (_ & _ & _ & I & P & _).
  rewrite I, P. clear I P.
  pose proof (is_step_not_stop (action_of ev)) as Hexcl.
  unfold is_adapter_stop, has_action in *.
  destruct (Interp.is_step (action_of ev)), (String.eqb (action_of ev) "stop"),
    (String.eqb (service_of ev) "ddb-da"), (Interp.ends_stepping (reason_of ev)),
    (is_adapter_continue ev), (_in_stepping s), (_is_paused s);
    cbn in *; intuition congruence.
Qed.

Lemma run_events_one_interval (evs : list Event) (s : DebugSession) :
  Forall stops_end_stepping evs -> one_interval_open s ->
  one_interval_open (Interp.run_events evs s).
Proof.
  intros Hevs. revert s. induction Hevs as [|e evs He _ IH]; intros s Hs.
  - exact Hs.
  - rewrite run_events_cons. apply IH. by apply handle_event_one_interval.
Qed.

(** ** The interpreter on a session *)

(** What [process_session] does to a session. *)
Lemma process_session_spec (s : DebugSession) :
  let sorted := sort_by_timestamp (events s) in
  let s' := process_session s in
  frame_of s' = frame_of (set_events sorted s)
  /\ counters_of s' = zip_with Z.add (counters_of s) (total_counts sorted)
  /\ unique_sessions_viewed s' = unique_sessions_viewed s ∪ viewed_all sorted
  /\ step_durations s `prefix_of` step_durations s'
  /\ pause_durations s `prefix_of` pause_durations s'.
Proof.
  cbv zeta. unfold process_session.
  exact (run_events_spec (sort_by_timestamp (events s))
           (set_events (sort_by_timestamp (events s)) s)).
Qed.

Lemma process_session_events (s : DebugSession) :
  events (process_session s) = sort_by_timestamp (events s).
Proof.
  destruct (process_session_spec s) as (F & _).
  unfold frame_of in F. by simplify_eq.
Qed.

(** With distinct timestamps, every permutation has the same events at each
    time. *)
Lemma at_time_distinct (t : Z) (l : list Event) :
  NoDup (timestamp <$> l) -> (length (at_time t l) <= 1)%nat.
Proof.
  unfold at_time. induction l as [|x l IH]; intros Hnd; [cbn; lia|].
  rewrite fmap_cons in Hnd. apply NoDup_cons in Hnd as [Hx Hnd].
  rewrite filter_cons. case_decide as Hxt; [|by apply IH].
  assert (Hnil : filter (fun e => timestamp e = t) l = []).
  { destruct (filter (fun e => timestamp e = t) l) as [|y k] eqn:Hf; [reflexivity|].
    assert (Hy : y ∈ filter (fun e => timestamp e = t) l)
      by (rewrite Hf; apply list_elem_of_here).
    apply list_elem_of_filter in Hy as [Hyt Hy].
    exfalso. apply Hx. rewrite Hxt, <- Hyt. by apply list_elem_of_fmap_2. }
  rewrite Hnil. cbn. lia.
Qed.

Lemma at_time_perm_distinct (l l' : list Event) :
  NoDup (timestamp <$> l) -> l' ≡ₚ l ->
  forall t, at_time t l' = at_time t l.
Proof.
  intros Hnd Hperm t.
  assert (Hp : at_time t l' ≡ₚ at_time t l) by (unfold at_time; by rewrite Hperm).
  pose proof (at_time_distinct t l Hnd) as Hlen.
  pose proof (Permutation_length Hp) as Hlen'.
  destruct (at_time t l) as [|x [|??]], (at_time t l') as [|y [|??]];
    cbn in *; try lia; [reflexivity|].
  f_equal. by apply Permutation_length_1.
Qed.

(** ** The pass, prefix by prefix *)

Lemma process_prefix_S (s : DebugSession) (k : nat) (ev : Event) :
  sort_by_timestamp (events s) !! k = Some ev ->
  process_prefix (S k) s = Interp.handle_event (process_prefix k s) ev.
Proof.
  intros Hk. unfold process_prefix.
  rewrite (take_S_r _ _ _ Hk). unfold Interp.run_events.
  by rewrite fold_left_app.
Qed.

Lemma process_prefix_ge (s : DebugSession) (k : nat) :
  (length (sort_by_timestamp (events s)) <= k)%nat ->
  process_prefix (S k) s = process_prefix k s.
Proof.
  intros Hk. unfold process_prefix.
  by rewrite !firstn_all2 by lia.
Qed.

(** One event keeps the two intervals from being open together unless it
    is a stop that does not end stepping and arrives while stepping is
    open. *)
Lemma handle_event_one_interval_tight (s : DebugSession) (ev : Event) :
  (non_ending_stop ev = true -> _in_stepping s = false) ->
  one_interval_open s ->
  one_interval_open (Interp.handle_event s ev).
Proof.
  unfold non_ending_stop, one_interval_open. intros Hev Hs.
  destruct (handle_event_spec s ev) as (_ & _ & _ & I & P & _).
  rewrite I, P. clear I P.
  pose proof (is_step_not_stop (action_of ev)) as Hexcl.
  unfold is_adapter_stop, has_action in *.
  destruct (Interp.is_step (action_of ev)), (String.eqb (action_of ev) "stop"),
    (String.eqb (service_of ev) "ddb-da"), (Interp.ends_stepping (reason_of ev)),
    (is_adapter_continue ev), (_in_stepping s), (_is_paused s);
    cbn in *; intuition congruence.
Qed.

(** Such a stop, arriving while stepping is open, leaves both intervals
    open. *)
Lemma non_ending_stop_opens_both (s : DebugSession) (ev : Event) :
  non_ending_stop ev = true -> _in_stepping s = true ->
  _in_stepping (Interp.handle_event s ev) = true
  /\ _is_paused (Interp.handle_event s ev) = true.
Proof.
  unfold non_ending_stop. intros Hev Hin.
  apply andb_prop in Hev as [Hstop Hends]. apply negb_true_iff in Hends.
  destruct (handle_event_spec s ev) as (_ & _ & _ & I & P & _).
  rewrite I, P, Hin, Hstop, Hends. clear I P.
  unfold is_adapter_stop, is_adapter_continue, has_action in *.
  apply andb_prop in Hstop as [Ha _]. apply String.eqb_eq in Ha. rewrite Ha.
  split; [reflexivity|]. by rewrite orb_true_r.
Qed.

(** A flag that every event updates as [(flag || u) && negb v] is, after a
    whole pass, either the flag on entry or a constant of the events. *)
Lemma flag_after_pass (flag : DebugSession -> bool) (u v : Event -> bool) :
  (forall s ev,
      flag (Interp.handle_event s ev) = (flag s || u ev) && negb (v ev)) ->
  forall evs,
    (forall s, flag (Interp.run_events evs s) = flag s)
    \/ (exists c, forall s, flag (Interp.run_events evs s) = c).
Proof.
  intros Hstep evs. induction evs as [|e evs [IH|[c IH]]].
  - by left.
  - destruct (u e) eqn:Hu, (v e) eqn:Hv.
    + right. exists false. intros s. by rewrite run_events_cons, IH, Hstep, Hu, Hv, andb_false_r.
    + right. exists true. intros s. by rewrite run_events_cons, IH, Hstep, Hu, Hv, orb_true_r.
    + right. exists false. intros s. by rewrite run_events_cons, IH, Hstep, Hu, Hv, andb_false_r.
    + left. intros s. by rewrite run_events_cons, IH, Hstep, Hu, Hv, orb_false_r, andb_true_r.
  - right. exists c. intros s. by rewrite run_events_cons, IH.
Qed.

Lemma flag_same_after_rerun (flag : DebugSession -> bool) (u v : Event -> bool)
    (s : DebugSession) :
  (forall x ev,
      flag (Interp.handle_event x ev) = (flag x || u ev) && negb (v ev)) ->
  (forall l x, flag (set_events l x) = flag x) ->
  flag (process_session (process_session s)) = flag (process_session s).
Proof.
  intros Hstep Hset.
  assert (He : sort_by_timestamp (events (process_session s))
               = sort_by_timestamp (events s)).
  { rewrite process_session_events. apply sort_by_timestamp_idem. }
  unfold process_session at 1. rewrite He.
  destruct (flag_after_pass flag u v Hstep (sort_by_timestamp (events s)))
    as [Hid|[c Hc]].
  - by rewrite Hid, Hset.
  - rewrite Hc. unfold process_session. by rewrite Hc.
Qed.

(** ** Claims about the interpreter *)

(** Claim C2, as the spec states it, fails: after a step that is stopped by
    a breakpoint (a stop whose reason does not end stepping) the stepping
    interval is still open and a pause interval has been opened. *)
Lemma C2_both_intervals_open :
  map (fun s => (_in_stepping s, _is_paused s))
      (map process_session (build_debug_sessions Scenario.step_then_breakpoint))
  = [(true, true)].
Proof. vm_compute. reflexivity. Qed.

(** Claim C2, amended: the stepping interval and the pause interval are
    not both open after a prefix of the pass, provided they are not both
    open on entry and no stop of the adapter with a reason other than
    [end-stepping-range] or [function-finished] arrives, within that prefix,
    while a stepping interval is open.  Such a stop is the only way to
    break the invariant: when one arrives while stepping is open, both
    intervals are open after it. *)
Theorem C2_one_interval_open (s : DebugSession) :
  (forall n,
      one_interval_open s ->
      (forall k ev,
          (k < n)%nat -> sort_by_timestamp (events s) !! k = Some ev ->
          non_ending_stop ev = true ->
          _in_stepping (process_prefix k s) = false) ->
      one_interval_open (process_prefix n s))
  /\ (forall k ev,
        sort_by_timestamp (events s) !! k = Some ev ->
        non_ending_stop ev = true ->
        _in_stepping (process_prefix k s) = true ->
        ~ one_interval_open (process_prefix (S k) s)).
Proof.
  split.
  - intros n Hs. induction n as [|n IH]; intros Hno.
    + exact Hs.
    + assert (Hn : one_interval_open (process_prefix n s)).
      { apply IH. intros k ev Hk. apply Hno. lia. }
      destruct (sort_by_timestamp (events s) !! n) as [ev|] eqn:Hev.
      * rewrite (process_prefix_S s n ev Hev).
        apply handle_event_one_interval_tight; [|exact Hn].
        apply (Hno n ev); [lia | exact Hev].
      * apply lookup_ge_None in Hev. by rewrite process_prefix_ge.
  - intros k ev Hev Hstop Hin Hinv.
    rewrite (process_prefix_S s k ev Hev) in Hinv.
    apply Hinv. by apply non_ending_stop_opens_both.
Qed.

Lemma C2_one_interval_open_witness :
  one_interval_open
    (process_prefix 5
       (set_events Scenario.stop_outside_stepping
          (new_session "u1" EmptyString 0 30))).
Proof.
  destruct (C2_one_interval_open
              (set_events Scenario.stop_outside_stepping
                 (new_session "u1" EmptyString 0 30))) as [H _].
  apply H.
  - intros [Hin _]. discriminate Hin.
  - intros k ev Hk Hev Hstop.
    destruct k as [|[|[|[|[|k]]]]]; try lia;
      vm_compute in Hev; injection Hev as <-;
      first [ vm_compute; reflexivity | vm_compute in Hstop; discriminate Hstop ].
Defined.

(** The same under the plainer premise that no stop of the adapter among
    the session's events carries a reason outside the two. *)
Corollary one_interval_open_when_stops_end_stepping (s : DebugSession) (n : nat) :
  Forall stops_end_stepping (events s) ->
  one_interval_open s ->
  one_interval_open (process_prefix n s).
Proof.
  intros Hevs Hs. unfold process_prefix.
  apply run_events_one_interval; [|exact Hs].
  apply Forall_forall. intros ev Hev.
  rewrite Forall_forall in Hevs. apply Hevs.
  rewrite <- (sort_by_timestamp_perm (events s)).
  by apply (subseteq_take n).
Qed.

(** Claim C3, as the spec states it, fails: a second run counts every step
    once more. *)
Lemma C3_second_run_counts_again :
  map (fun s => (step_count (process_session s),
                 step_count (process_session (process_session s))))
      (build_debug_sessions Scenario.one_step)
  = [(1, 2)].
Proof. vm_compute. reflexivity. Qed.

(** Claim C3, amended: a second run on the populated session accumulates
    on top of the first.  Every event-driven counter grows by the amount it
    grew in the first run, so the counters are the same after both runs
    exactly when the first run counted nothing; the duration lists of the
    first run are prefixes of those of the second.  The same after both
    runs are [signal_count], [unique_sessions_viewed], the sorted event
    list, the identity and time fields ([user_id], [da_session_id],
    [ext_session_id], [start_ts], [end_ts]), the two lists of start times
    and the two open-interval flags.  Running on the populated session with
    a copy of the original event list gives the same second result. *)
Theorem C3_rerun_accumulates (s : DebugSession) :
  let s1 := process_session s in
  let s2 := process_session s1 in
  step_count s2 - step_count s1 = step_count s1 - step_count s
  /\ breakpoint_ops s2 - breakpoint_ops s1 = breakpoint_ops s1 - breakpoint_ops s
  /\ frame_switches s2 - frame_switches s1 = frame_switches s1 - frame_switches s
  /\ dbt_frame_switches s2 - dbt_frame_switches s1
     = dbt_frame_switches s1 - dbt_frame_switches s
  /\ pause_count s2 - pause_count s1 = pause_count s1 - pause_count s
  /\ continue_count s2 - continue_count s1 = continue_count s1 - continue_count s
  /\ jump_count s2 - jump_count s1 = jump_count s1 - jump_count s
  /\ variable_examinations s2 - variable_examinations s1
     = variable_examinations s1 - variable_examinations s
  /\ signal_count s2 = signal_count s1
  /\ unique_sessions_viewed s2 = unique_sessions_viewed s1
  /\ events s2 = events s1
  /\ step_durations s1 `prefix_of` step_durations s2
  /\ pause_durations s1 `prefix_of` pause_durations s2
  /\ process_session (set_events (events s) s1) = s2
  /\ user_id s2 = user_id s1
  /\ da_session_id s2 = da_session_id s1
  /\ ext_session_id s2 = ext_session_id s1
  /\ start_ts s2 = start_ts s1
  /\ end_ts s2 = end_ts s1
  /\ step_start_times s2 = step_start_times s1
  /\ pause_start_times s2 = pause_start_times s1
  /\ _in_stepping s2 = _in_stepping s1
  /\ _is_paused s2 = _is_paused s1
  /\ (counters_of s2 = counters_of s1 <-> counters_of s1 = counters_of s).
Proof.
  intros s1 s2.
  assert (Hin : _in_stepping s2 = _in_stepping s1).
  { apply (flag_same_after_rerun _in_stepping
             (fun ev => Interp.is_step (action_of ev))
             (fun ev => is_adapter_stop ev && Interp.ends_stepping (reason_of ev)));
      [|reflexivity].
    intros x ev. by destruct (handle_event_spec x ev) as (_ & _ & _ & -> & _). }
  assert (Hpa : _is_paused s2 = _is_paused s1).
  { apply (flag_same_after_rerun _is_paused is_adapter_stop
             (fun ev => is_adapter_continue ev || Interp.is_step (action_of ev)));
      [|reflexivity].
    intros x ev. destruct (handle_event_spec x ev) as (_ & _ & _ & _ & -> & _).
    by rewrite negb_orb, andb_assoc. }
  assert (Hcopy : process_session (set_events (events s) s1) = s2).
  { assert (He : events s1 = sort_by_timestamp (events s))
      by apply process_session_events.
    transitivity (Interp.run_events (sort_by_timestamp (events s))
                    (set_events (sort_by_timestamp (events s)) s1));
      [reflexivity|].
    unfold s2.
    change (process_session s1)
      with (Interp.run_events (sort_by_timestamp (events s1))
              (set_events (sort_by_timestamp (events s1)) s1)).
    rewrite He, sort_by_timestamp_idem. reflexivity. }
  destruct (process_session_spec s) as (F1 & C1 & U1 & _).
  destruct (process_session_spec s1) as (F2 & C2 & U2 & D2 & E2).
  fold s1 in F1, C1, U1. fold s2 in F2, C2, U2, D2, E2.
  assert (Hev : sort_by_timestamp (events s1) = sort_by_timestamp (events s)).
  { unfold s1. rewrite process_session_events. apply sort_by_timestamp_idem. }
  rewrite Hev in *. clear Hev.
  unfold frame_of in F1, F2. cbn [set_events signal_count events] in F1, F2.
  unfold counters_of in C1, C2.
  destruct (total_counts (sort_by_timestamp (events s)))
    as [|d1 [|d2 [|d3 [|d4 [|d5 [|d6 [|d7 [|d8 T]]]]]]]];
    cbn [zip_with] in C1, C2; try discriminate C1.
  injection C1 as A1 A2 A3 A4 A5 A6 A7 A8.
  injection C2 as B1 B2 B3 B4 B5 B6 B7 B8.
  injection F1 as _ _ _ _ _ Hev1 _ _ _.
  cbn [user_id da_session_id ext_session_id start_ts end_ts step_start_times
       pause_start_times set_events] in F2.
  injection F2 as Hf1 Hf2 Hf3 Hf4 Hf5 Hev2 Hsig Hf6 Hf7.
  assert (Hsame : counters_of s2 = counters_of s1 <-> counters_of s1 = counters_of s).
  { unfold counters_of. rewrite A1, A2, A3, A4, A5, A6, A7, A8,
      B1, B2, B3, B4, B5, B6, B7, B8, A1, A2, A3, A4, A5, A6, A7, A8.
    split; intros [= ? ? ? ? ? ? ? ?];
      repeat (match goal with |- _ :: _ = _ :: _ => f_equal end); lia. }
  repeat match goal with |- _ /\ _ => split end;
    try lia; try assumption; try congruence.
  rewrite U2, U1, <- (assoc_L (∪)), (idemp_L (∪)). reflexivity.
Qed.




(** The same for every permutation, when the timestamps are distinct. *)
Corollary order_insensitive_distinct (s : DebugSession) (evs' : list Event) :
  NoDup (timestamp <$> events s) -> evs' ≡ₚ events s ->
  process_session (set_events evs' s) = process_session s.
Proof.
  intros Hnd Hperm. unfold process_session. cbn [events set_events].
  rewrite (sort_by_timestamp_ext evs' (events s)); [reflexivity|].
  by apply at_time_perm_distinct.
Qed.

(** Claim C6: scenario A gives one step, one stepping interval of 40 and
    one pause interval of 10. *)
Theorem C6_scenario_A :
  map (fun s => (step_count s, step_durations s, pause_durations s))
      (map process_session (build_debug_sessions Scenario.scenario_A))
  = [(1, [40], [10])].
Proof. vm_compute. reflexivity. Qed.

(** Claim C8: an [evaluate] whose [session] parameter is [undefined] counts
    as a variable examination and leaves [unique_sessions_viewed] as it is;
    no event adds [undefined] to [unique_sessions_viewed], neither in one
    step of the loop nor in a whole pass. *)
Theorem C8_undefined_not_viewed (s : DebugSession) :
  (forall ev,
      action_of ev = "evaluate" ->
      dict_get (params_of ev) "session" EmptyString = "undefined" ->
      variable_examinations (Interp.handle_event s ev) = variable_examinations s + 1
      /\ unique_sessions_viewed (Interp.handle_event s ev) = unique_sessions_viewed s)
  /\ (forall ev,
        "undefined" ∈ unique_sessions_viewed (Interp.handle_event s ev) ->
        "undefined" ∈ unique_sessions_viewed s)
  /\ ("undefined" ∈ unique_sessions_viewed (process_session s) ->
      "undefined" ∈ unique_sessions_viewed s).
Proof.
  assert (Hdeb : forall p, "undefined" ∉ debuggee_of p).
  { intros p. unfold debuggee_of.
    destruct (Re.is_empty _); cbn [negb andb]; [apply not_elem_of_empty|].
    destruct (String.eqb_spec (dict_get p "session" EmptyString) "undefined") as [|Hne];
      cbn [negb]; [apply not_elem_of_empty|].
    intros Hin. apply elem_of_singleton in Hin. by apply Hne. }
  assert (Hin1 : forall ev, "undefined" ∉ viewed_in ev).
  { intros ev. unfold viewed_in. destruct (Re.is_empty _); [apply not_elem_of_empty|].
    apply Hdeb. }
  split; [|split].
  - intros ev Ha Hs.
    destruct (handle_event_spec s ev) as (_ & C & U & _).
    unfold counters_of, event_counts in C. unfold viewed_in, debuggee_of in U.
    rewrite Ha, ?Hs in *. cbn [Re.is_empty zip_with] in C, U.
    split.
    + injection C as _ _ _ _ _ _ _ C. rewrite C. reflexivity.
    + rewrite U. cbn. apply (right_id_L ∅ (∪)).
  - intros ev. destruct (handle_event_spec s ev) as (_ & _ & U & _).
    rewrite U, elem_of_union. intros [H|H]; [exact H | by apply Hin1 in H].
  - destruct (process_session_spec s) as (_ & _ & U & _).
    rewrite U, elem_of_union. intros [H|H]; [exact H|].
    unfold viewed_all in H. apply elem_of_union_list in H as (X & HX & H).
    apply list_elem_of_fmap in HX as (ev & -> & _). by apply Hin1 in H.
Qed.

Lemma C8_undefined_not_viewed_witness :
  let s := new_session "u1" EmptyString 0 10 in
  variable_examinations (Interp.handle_event s Scenario.evaluate_undefined) = 1
  /\ unique_sessions_viewed (Interp.handle_event s Scenario.evaluate_undefined) = ∅
  /\ "undefined" ∉ unique_sessions_viewed
                     (process_session (set_events [Scenario.evaluate_undefined] s)).
Proof.
  intros s.
  destruct (C8_undefined_not_viewed s) as (H1 & _).
  destruct (H1 Scenario.evaluate_undefined) as (Hv & Hu);
    [vm_compute; reflexivity | vm_compute; reflexivity |].
  destruct (C8_undefined_not_viewed (set_events [Scenario.evaluate_undefined] s))
    as (_ & _ & H3).
  split; [exact Hv | split; [exact Hu|]].
  intros Hin. apply H3 in Hin. revert Hin. apply not_elem_of_empty.
Defined.

(** Claim C10: the interpreter leaves the identity and the time window of
    a session alone and only reorders its events; the other fields that no
    block writes ([ext_session_id], [signal_count], the two lists of start
    times) are unchanged too. *)
Theorem C10_frame (s : DebugSession) :
  let s' := process_session s in
  user_id s' = user_id s
  /\ da_session_id s' = da_session_id s
  /\ start_ts s' = start_ts s
  /\ end_ts s' = end_ts s
  /\ events s' ≡ₚ events s
  /\ ext_session_id s' = ext_session_id s
  /\ signal_count s' = signal_count s
  /\ step_start_times s' = step_start_times s
  /\ pause_start_times s' = pause_start_times s.
Proof.
  intros s'. destruct (process_session_spec s) as (F & _). fold s' in F.
  unfold frame_of in F. cbn in F.
  injection F as -> -> -> -> -> -> -> -> ->.
  repeat split; try reflexivity. apply sort_by_timestamp_perm.
Qed.

(** ** The pairing of stop markers *)

Import Builder.

Section Pairing.
Variable stop_events : list Event.

(** The scan never moves back. *)
Lemma scan_stops_ge init_ts pending idx :
  (idx <= (scan_stops init_ts pending idx).1)%nat.
Proof.
  revert idx. induction pending as [|st pending IH]; intros idx; cbn; [lia|].
  destruct (timestamp st >? init_ts); cbn; [lia|].
  specialize (IH (S idx)). lia.
Qed.

(** Where the scan stops: at the first pending marker later than
    [init_ts]; the markers passed over are not later. *)
Lemma scan_stops_found init_ts idx j t :
  scan_stops init_ts (drop idx stop_events) idx = (j, Some t) ->
  (idx <= j)%nat /\ init_ts < t
  /\ (exists st, stop_events !! j = Some st /\ timestamp st = t)
  /\ (forall k st, (idx <= k < j)%nat -> stop_events !! k = Some st ->
                   timestamp st <= init_ts).
Proof.
  remember (drop idx stop_events) as pending eqn:Hp.
  revert idx Hp. induction pending as [|st pending IH]; intros idx Hp; cbn.
  - discriminate.
  - assert (Hst : stop_events !! idx = Some st).
    { rewrite <- (Nat.add_0_r idx), <- lookup_drop, <- Hp. reflexivity. }
    assert (Hp' : pending = drop (S idx) stop_events).
    { rewrite (drop_S _ _ _ Hst) in Hp. by injection Hp. }
    destruct (Z.gtb_spec (timestamp st) init_ts) as [Hgt|Hle].
    + intros [= <- <-]. split; [lia|]. split; [lia|]. split; [eauto|]. intros; lia.
    + intros Hscan. destruct (IH (S idx) Hp' Hscan) as (Hge & Ht & Hj & Hskip).
      split; [lia|]. split; [lia|]. split; [exact Hj|].
      intros k st' Hk Hk'. destruct (decide (k = idx)) as [->|Hne].
      * rewrite Hst in Hk'. injection Hk' as <-. exact Hle.
      * apply (Hskip k); [lia | exact Hk'].
Qed.

(** When the scan finds nothing, no pending marker is later. *)
Lemma scan_stops_none init_ts idx j :
  scan_stops init_ts (drop idx stop_events) idx = (j, None) <->
  j = Nat.max idx (length stop_events)
  /\ forall k st, (idx <= k)%nat -> stop_events !! k = Some st ->
                  timestamp st <= init_ts.
Proof.
  remember (drop idx stop_events) as pending eqn:Hp.
  revert idx Hp. induction pending as [|st pending IH]; intros idx Hp; cbn.
  - assert (Hlen : (length stop_events <= idx)%nat).
    { apply (f_equal length) in Hp. rewrite length_drop in Hp. cbn in Hp. lia. }
    split.
    + intros [= <-]. split; [lia|]. intros k st Hk Hst.
      apply lookup_lt_Some in Hst. lia.
    + intros [-> _]. f_equal. lia.
  - assert (Hst : stop_events !! idx = Some st).
    { rewrite <- (Nat.add_0_r idx), <- lookup_drop, <- Hp. reflexivity. }
    assert (Hp' : pending = drop (S idx) stop_events).
    { rewrite (drop_S _ _ _ Hst) in Hp. by injection Hp. }
    pose proof (lookup_lt_Some _ _ _ Hst) as Hlt.
    destruct (Z.gtb_spec (timestamp st) init_ts) as [Hgt|Hle].
    + split; [discriminate|]. intros [_ Hall].
      specialize (Hall idx st (Nat.le_refl _) Hst). lia.
    + rewrite (IH (S idx) Hp'). split.
      * intros [-> Hall]. split; [lia|]. intros k st' Hk Hk'.
        destruct (decide (k = idx)) as [->|Hne].
        -- rewrite Hst in Hk'. injection Hk' as <-. exact Hle.
        -- apply (Hall k); [lia | exact Hk'].
      * intros [-> Hall]. split; [lia|]. intros k st' Hk. apply Hall. lia.
Qed.

(** The scan position after a pairing is not before the one on entry. *)
Lemma pair_step_ge init_ts next_init_ts idx :
  (idx <= (pair_step stop_events init_ts next_init_ts idx).2)%nat.
Proof.
  unfold pair_step.
  pose proof (scan_stops_ge init_ts (drop idx stop_events) idx) as Hge.
  destruct (scan_stops init_ts (drop idx stop_events) idx) as [j r].
  cbn in *. destruct (le_inf r next_init_ts && bool_decide (r <> None)); cbn; lia.
Qed.

Lemma stop_positions_head da_inits idx :
  exists ps, stop_positions stop_events da_inits idx = idx :: ps.
Proof. destruct da_inits; cbn; eauto. Qed.

(** The scan positions never decrease. *)
Lemma stop_positions_sorted da_inits idx :
  StronglySorted le (stop_positions stop_events da_inits idx).
Proof.
  revert idx. induction da_inits as [|init_ev rest IH]; intros idx; cbn.
  - repeat constructor.
  - set (idx' := (pair_step _ _ _ idx).2).
    pose proof (pair_step_ge (timestamp init_ev) (next_init_of rest) idx) as Hge.
    fold idx' in Hge. specialize (IH idx').
    constructor; [exact IH|].
    destruct (stop_positions_head rest idx') as [ps Hps].
    rewrite Hps in *. pose proof (StronglySorted_inv IH) as [_ Hall].
    constructor; [exact Hge|].
    eapply Forall_impl; [exact Hall|]. cbn. intros; lia.
Qed.
End Pairing.

(** Claim C5: a stop marker at the timestamp of the next init marker is the
    end boundary of the session ([next_stop_ts <= next_init_ts] holds) and
    is consumed: the scan position moves past it, the following session is
    paired from there on, and every later scan position lies beyond it.
    The scan positions of successive init markers never decrease. *)
Theorem C5_stop_pairing (stop_events : list Event) :
  (forall da_inits idx,
      StronglySorted le (stop_positions stop_events da_inits idx))
  /\ (forall init_ev nxt rest idx j,
        scan_stops (timestamp init_ev) (drop idx stop_events) idx
        = (j, Some (timestamp nxt)) ->
        pair_step stop_events (timestamp init_ev) (next_init_of (nxt :: rest)) idx
        = (Some (timestamp nxt), S j)
        /\ (forall uid evs,
              exists s,
                pair_inits uid evs stop_events (init_ev :: nxt :: rest) idx
                = s :: pair_inits uid evs stop_events (nxt :: rest) (S j)
                /\ end_ts s = timestamp nxt)
        /\ (exists ps,
              stop_positions stop_events (init_ev :: nxt :: rest) idx
              = idx :: S j :: ps
              /\ Forall (fun p => (j < p)%nat) ps)).
Proof.
  split; [apply stop_positions_sorted|].
  intros init_ev nxt rest idx j Hscan.
  assert (Hstep : pair_step stop_events (timestamp init_ev)
                    (next_init_of (nxt :: rest)) idx
                  = (Some (timestamp nxt), S j)).
  { unfold pair_step. rewrite Hscan. cbn [next_init_of min_inf le_inf].
    rewrite Z.min_id, Z.leb_refl. reflexivity. }
  split; [exact Hstep|]. split.
  - intros uid evs. eexists. cbn [pair_inits]. rewrite Hstep. split; reflexivity.
  - cbn [stop_positions]. rewrite Hstep. cbn [snd].
    set (idx' := (pair_step stop_events (timestamp nxt) (next_init_of rest) (S j)).2).
    eexists. split; [reflexivity|].
    pose proof (pair_step_ge stop_events (timestamp nxt) (next_init_of rest) (S j)) as Hge.
    fold idx' in Hge.
    pose proof (stop_positions_sorted stop_events rest idx') as Hs.
    destruct (stop_positions_head stop_events rest idx') as [ps Hps].
    rewrite Hps in *. pose proof (StronglySorted_inv Hs) as [_ Hall].
    constructor; [lia|].
    eapply Forall_impl; [exact Hall|]. cbn. intros; lia.
Qed.

Lemma C5_stop_pairing_witness :
  pair_step Scenario.tie_stops 0 (Some 10) 0 = (Some 10, 1%nat)
  /\ stop_positions Scenario.tie_stops Scenario.tie_inits 0 = [0; 1; 2]%nat.
Proof.
  destruct (C5_stop_pairing Scenario.tie_stops) as [_ H].
  destruct (H (Scenario.init_at 0) (Scenario.init_at 10) [] 0%nat 0%nat) as (H1 & _ & _);
    [vm_compute; reflexivity|].
  split; [exact H1 | vm_compute; reflexivity].
Defined.

(** ** The sessions of one user *)

Section UserSessions.
Implicit Types (evs : list Event) (s : DebugSession).

(** The marker lists are sublists of the user's events. *)
Lemma collect_markers_sublist evs :
  (collect_markers evs).1 `sublist_of` evs
  /\ (collect_markers evs).2 `sublist_of` evs.
Proof.
  induction evs as [|ev evs [IH1 IH2]]; cbn [collect_markers].
  - split; constructor.
  - destruct (collect_markers evs) as [da_inits stop_events]. cbn [fst snd] in *.
    destruct (is_da_init ev); [|destruct (is_ext_stop ev); [|destruct (is_api_stop ev)]];
      cbn [fst snd]; split; by constructor.
Qed.

Lemma sublist_sorted (l l' : list Event) :
  l' `sublist_of` l -> StronglySorted ts_le l -> StronglySorted ts_le l'.
Proof.
  induction 1 as [|x l1 l2 Hsub IH|x l1 l2 Hsub IH]; intros Hs.
  - constructor.
  - apply StronglySorted_inv in Hs as [Hs Hx].
    constructor; [by apply IH|].
    rewrite Forall_forall in Hx |- *. intros y Hy. apply Hx.
    eapply elem_of_sublist; eassumption.
  - apply StronglySorted_inv in Hs as [Hs _]. by apply IH.
Qed.

(** The last event of a sorted list has the largest timestamp. *)
Lemma last_timestamp_max evs e :
  StronglySorted ts_le evs -> e ∈ evs -> timestamp e <= last_timestamp evs.
Proof.
  unfold last_timestamp. induction 1 as [|x l Hs IH Hx]; intros He.
  - by apply elem_of_nil in He.
  - destruct l as [|y l]; cbn [last].
    + apply list_elem_of_singleton in He as ->. lia.
    + apply elem_of_cons in He as [->|He]; [|by apply IH].
      change (last (x :: y :: l)) with (last (y :: l)).
      destruct (last (y :: l)) as [z|] eqn:Hlast.
      * apply last_Some_elem_of in Hlast.
        rewrite Forall_forall in Hx. by apply Hx.
      * by apply last_None in Hlast.
Qed.

(** The end candidate of a pairing is not before the init marker. *)
Lemma pair_step_end_ge stop_events init_ts next_init_ts idx e :
  (forall n, next_init_ts = Some n -> init_ts <= n) ->
  (pair_step stop_events init_ts next_init_ts idx).1 = Some e ->
  init_ts <= e.
Proof.
  intros Hnext. unfold pair_step.
  destruct (scan_stops init_ts (drop idx stop_events) idx) as [j [t|]] eqn:Hscan;
    cbn [fst].
  - apply scan_stops_found in Hscan as (_ & Ht & _).
    destruct next_init_ts as [n|]; cbn [min_inf]; intros [= <-]; [|lia].
    specialize (Hnext n eq_refl). lia.
  - destruct next_init_ts as [n|]; cbn [min_inf]; intros [= <-]. by apply Hnext.
Qed.

(** The sessions of the pairing loop: one per init marker, each new, with
    the events of its window. *)
Lemma pair_inits_built uid evs stop_events da_inits idx :
  Forall (built_by uid evs) (pair_inits uid evs stop_events da_inits idx).
Proof.
  revert idx. induction da_inits as [|init_ev rest IH]; intros idx;
    cbn [pair_inits]; [constructor|].
  destruct (pair_step stop_events (timestamp init_ev) (next_init_of rest) idx)
    as [end_candidate idx'].
  constructor; [reflexivity | apply IH].
Qed.

Lemma pair_inits_window uid evs stop_events da_inits idx :
  StronglySorted ts_le da_inits ->
  Forall (fun i => timestamp i <= last_timestamp evs) da_inits ->
  Forall (fun s => start_ts s <= end_ts s)
         (pair_inits uid evs stop_events da_inits idx).
Proof.
  intros Hs. revert idx.
  induction Hs as [|init_ev rest Hs IH Hinit]; intros idx Hlast;
    cbn [pair_inits]; [constructor|].
  apply Forall_cons in Hlast as [Hlast0 Hlast].
  pose proof (pair_step_end_ge stop_events (timestamp init_ev)
                (next_init_of rest) idx) as Hend.
  destruct (pair_step stop_events (timestamp init_ev) (next_init_of rest) idx)
    as [end_candidate idx'].
  constructor; [|by apply IH].
  cbn [start_ts end_ts set_events new_session fst] in *.
  destruct end_candidate as [e|]; [|exact Hlast0].
  apply Hend; [|reflexivity].
  intros n Hn. destruct Hinit as [|nxt rest' Hnxt _]; [discriminate|].
  cbn in Hn. injection Hn as <-. exact Hnxt.
Qed.

(** The session of the last init marker is open-ended when no marker at
    or after the scan position is later than it. *)
Lemma pair_inits_last uid evs stop_events da_inits idx s pos :
  last (pair_inits uid evs stop_events da_inits idx) = Some s ->
  stop_positions stop_events da_inits idx !! (length da_inits - 1)%nat = Some pos ->
  (forall k st, (pos <= k)%nat -> stop_events !! k = Some st ->
                timestamp st <= start_ts s) ->
  end_ts s = last_timestamp evs.
Proof.
  revert idx. induction da_inits as [|init_ev rest IH]; intros idx;
    cbn [pair_inits stop_positions]; [discriminate|].
  destruct rest as [|nxt rest].
  - clear IH. cbn [pair_inits next_init_of length Nat.sub lookup list_lookup].
    unfold pair_step.
    destruct (scan_stops (timestamp init_ev) (drop idx stop_events) idx)
      as [j [t|]] eqn:Hscan; cbn [min_inf le_inf andb fst snd].
    + intros [= <-] [= <-] Hno. cbn [start_ts set_events new_session] in Hno.
      apply scan_stops_found in Hscan as (Hj & Ht & (st & Hst & <-) & _).
      specialize (Hno j st Hj Hst). lia.
    + intros [= <-] _ _. reflexivity.
  - destruct (pair_step stop_events (timestamp init_ev)
                (next_init_of (nxt :: rest)) idx) as [end_candidate idx'] eqn:Hstep.
    cbn [snd]. intros Hlast Hpos. apply (IH idx').
    + cbn [pair_inits] in Hlast |- *.
      destruct (pair_step stop_events (timestamp nxt) (next_init_of rest) idx').
      exact Hlast.
    + cbn [length Nat.sub] in Hpos |- *. rewrite Nat.sub_0_r. exact Hpos.
Qed.
End UserSessions.


(** ** Claims about the builder *)

Lemma user_sessions_unfold (uid : string) (evs : list Event) :
  user_sessions uid evs =
  pair_inits uid (sort_by_timestamp evs)
    (sort_by_timestamp (collect_markers (sort_by_timestamp evs)).2)
    (collect_markers (sort_by_timestamp evs)).1 0.
Proof.
  unfold user_sessions.
  destruct (collect_markers (sort_by_timestamp evs)). reflexivity.
Qed.

Lemma user_sessions_window (uid : string) (evs : list Event) :
  Forall (fun s => start_ts s <= end_ts s) (user_sessions uid evs).
Proof.
  rewrite user_sessions_unfold.
  pose proof (sort_by_timestamp_sorted evs) as Hsorted.
  destruct (collect_markers_sublist (sort_by_timestamp evs)) as [Hsub _].
  apply pair_inits_window.
  - eapply sublist_sorted; eassumption.
  - apply Forall_forall. intros i Hi. apply last_timestamp_max; [exact Hsorted|].
    eapply elem_of_sublist; eassumption.
Qed.

Lemma user_sessions_built (uid : string) (evs : list Event) :
  Forall (built_by uid (sort_by_timestamp evs)) (user_sessions uid evs).
Proof. rewrite user_sessions_unfold. apply pair_inits_built. Qed.

Lemma build_debug_sessions_Forall (P : DebugSession -> Prop) (events_ : list Event) :
  (forall uid evs, Forall P (user_sessions uid evs)) ->
  Forall P (build_debug_sessions events_).
Proof.
  intros HP. unfold build_debug_sessions.
  induction (group_by_user events_) as [|[uid evs] groups IH]; cbn [flat_map].
  - constructor.
  - apply Forall_app. split; [apply HP | exact IH].
Qed.

(** Claim C7: every session of the builder has [start_ts <= end_ts]; and
    the session of a user's last init marker, when no stop marker at or
    after the scan position (no unconsumed marker) is later than that init
    marker, ends at the timestamp of the user's last event. *)
Theorem C7_session_window (events_ : list Event) :
  Forall (fun s => start_ts s <= end_ts s) (build_debug_sessions events_)
  /\ (forall uid evs s pos,
        (uid, evs) ∈ group_by_user events_ ->
        let sorted := sort_by_timestamp evs in
        let da_inits := (collect_markers sorted).1 in
        let stop_events := sort_by_timestamp (collect_markers sorted).2 in
        last (user_sessions uid evs) = Some s ->
        stop_positions stop_events da_inits 0 !! (length da_inits - 1)%nat = Some pos ->
        (forall k st, (pos <= k)%nat -> stop_events !! k = Some st ->
                      timestamp st <= start_ts s) ->
        end_ts s = last_timestamp sorted).
Proof.
  split.
  - apply build_debug_sessions_Forall. intros uid evs. apply user_sessions_window.
  - intros uid evs s pos _ sorted da_inits stop_events Hlast Hpos Hno.
    rewrite user_sessions_unfold in Hlast.
    exact (pair_inits_last uid sorted stop_events da_inits 0 s pos Hlast Hpos Hno).
Qed.

Lemma C7_session_window_witness :
  Forall (fun s => start_ts s <= end_ts s)
         (build_debug_sessions Scenario.scenario_A)
  /\ end_ts (set_events Scenario.scenario_A (new_session "u1" EmptyString 0 60))
     = last_timestamp (sort_by_timestamp Scenario.scenario_A).
Proof.
  destruct (C7_session_window Scenario.scenario_A) as [H1 H2].
  split; [exact H1|].
  apply (H2 "u1" Scenario.scenario_A _ 0%nat).
  - vm_compute. apply list_elem_of_here.
  - vm_compute. reflexivity.
  - vm_compute. reflexivity.
  - intros k st _ Hst. vm_compute in Hst. discriminate Hst.
Defined.

(** The same with the plainer premise that the user has no stop marker
    later than the init marker at all. *)
Corollary open_session_ends_at_last_event (uid : string) (evs : list Event)
    (s : DebugSession) :
  last (user_sessions uid evs) = Some s ->
  (forall st, st ∈ (collect_markers (sort_by_timestamp evs)).2 ->
              timestamp st <= start_ts s) ->
  end_ts s = last_timestamp (sort_by_timestamp evs).
Proof.
  intros Hlast Hno. rewrite user_sessions_unfold in Hlast.
  set (da_inits := (collect_markers (sort_by_timestamp evs)).1) in *.
  set (stop_events := sort_by_timestamp (collect_markers (sort_by_timestamp evs)).2) in *.
  destruct (stop_positions stop_events da_inits 0 !! (length da_inits - 1)%nat)
    as [pos|] eqn:Hpos.
  - eapply pair_inits_last; [exact Hlast | exact Hpos |].
    intros k st _ Hst. apply Hno.
    rewrite <- (sort_by_timestamp_perm (collect_markers (sort_by_timestamp evs)).2).
    eapply list_elem_of_lookup_2. exact Hst.
  - exfalso. apply lookup_ge_None in Hpos.
    assert (Hlen : forall l i, length (stop_positions stop_events l i) = S (length l)).
    { induction l; intros; cbn; [reflexivity | by rewrite IHl]. }
    rewrite Hlen in Hpos. lia.
Qed.

(** Claim C9: no session that the builder makes and the interpreter fills
    has a [signal_count] other than zero. *)
Theorem C9_signal_count_zero (events_ : list Event) :
  Forall (fun s => signal_count s = 0)
         (map process_session (build_debug_sessions events_)).
Proof.
  apply Forall_map. apply build_debug_sessions_Forall. intros uid evs.
  eapply Forall_impl; [apply user_sessions_built|].
  intros s Hs. cbn beta.
  destruct (process_session_spec s) as (F & _).
  unfold frame_of in F. injection F as _ _ _ _ _ _ -> _ _.
  rewrite Hs. reflexivity.
Qed.

(** The builder hands every session to the interpreter with both intervals
    closed. *)
Lemma built_sessions_closed (events_ : list Event) :
  Forall one_interval_open (build_debug_sessions events_).
Proof.
  apply build_debug_sessions_Forall. intros uid evs.
  eapply Forall_impl; [apply user_sessions_built|].
  intros s Hs. unfold one_interval_open. rewrite Hs. cbn. intros [H _]. discriminate H.
Qed.

(** Claim C1 fails on the code: of two init markers with no stop marker
    between them, the second ends the first session and starts the second;
    both windows are closed intervals, so the second init marker is attached
    to both sessions. *)
Lemma C1_boundary_event_in_two_sessions :
  map (fun s => (start_ts s, end_ts s, events s))
      (build_debug_sessions Scenario.two_inits)
  = [ (0, 10, [Scenario.init_at 0; Scenario.init_at 10]);
      (10, 10, [Scenario.init_at 10]) ].
Proof. vm_compute. reflexivity. Qed.

(** ** The grouping by user *)

Section Grouping.
Implicit Types (g : list (string * list Event)) (l : list Event).

Lemma append_user_event_spec uid ev g :
  NoDup (g.*1) ->
  NoDup (append_user_event uid ev g).*1
  /\ (forall u, u ∈ (append_user_event uid ev g).*1 <-> u = uid \/ u ∈ g.*1)
  /\ (forall u evs',
        (u, evs') ∈ append_user_event uid ev g ->
        (u <> uid /\ (u, evs') ∈ g)
        \/ (u = uid
            /\ ((exists evs, (uid, evs) ∈ g /\ evs' = evs ++ [ev])
                \/ (~ (uid ∈ (g.*1)) /\ evs' = [ev])))).
Proof.
  induction g as [|[u0 evs0] g IH]; intros Hnd; cbn [append_user_event].
  - split; [|split].
    + cbn. apply NoDup_singleton.
    + intros u. cbn. rewrite list_elem_of_singleton, elem_of_nil. tauto.
    + intros u evs' Hin. apply list_elem_of_singleton in Hin as [= -> ->].
      right. split; [reflexivity|]. right. split; [apply not_elem_of_nil | reflexivity].
  - cbn [fmap list_fmap fst] in Hnd. apply NoDup_cons in Hnd as [Hu0 Hnd].
    destruct (String.eqb_spec u0 uid) as [->|Hne].
    + split; [|split].
      * cbn. by apply NoDup_cons.
      * intros u. cbn. rewrite !elem_of_cons. tauto.
      * intros u evs' Hin. apply elem_of_cons in Hin as [[= -> ->]|Hin].
        -- right. split; [reflexivity|]. left. exists evs0.
           split; [apply list_elem_of_here | reflexivity].
        -- left. split; [|by apply list_elem_of_further].
           intros ->. apply Hu0.
           apply (list_elem_of_fmap_2 fst) in Hin. exact Hin.
    + destruct (IH Hnd) as (IHnd & IHkeys & IHin).
      split; [|split].
      * cbn. apply NoDup_cons. split; [|exact IHnd].
        rewrite IHkeys. intros [->|Hin]; [by apply Hne | by apply Hu0].
      * intros u. cbn. rewrite !elem_of_cons, IHkeys. tauto.
      * intros u evs' Hin. apply elem_of_cons in Hin as [[= -> ->]|Hin].
        -- left. split; [exact Hne | apply list_elem_of_here].
        -- destruct (IHin u evs' Hin) as [[Hu Hg]|[-> [(evs & Hg & ->)|[Hg ->]]]].
           ++ left. split; [exact Hu | by apply list_elem_of_further].
           ++ right. split; [reflexivity|]. left. exists evs.
              split; [by apply list_elem_of_further | reflexivity].
           ++ right. split; [reflexivity|]. right. split; [|reflexivity].
              cbn. rewrite elem_of_cons. intros [->|Hin']; [by apply Hne | by apply Hg].
Qed.

(** The first loop of the builder groups the events by user. *)
Lemma group_by_user_grouped l : grouped l (group_by_user l).
Proof.
  unfold group_by_user.
  induction l as [|ev l IH] using rev_ind.
  - cbn. split; [constructor|].
    split; intros; match goal with H : _ ∈ [] |- _ => by apply elem_of_nil in H end.
  - rewrite fold_left_app. cbn [fold_left].
    set (g := fold_left _ l []) in *.
    destruct IH as (Hnd & Hg & Hcov).
    destruct (Re.is_empty (user_of ev)) eqn:Hempty; cbn [negb].
    + split; [exact Hnd|]. split.
      * intros u evs Hin. destruct (Hg u evs Hin) as [Hu ->].
        split; [exact Hu|].
        rewrite filter_app, filter_cons_False, filter_nil, app_nil_r; [reflexivity|].
        intros Heq. rewrite Heq in Hempty. congruence.
      * intros e He Hne. apply elem_of_app in He as [He|He]; [by apply Hcov|].
        apply list_elem_of_singleton in He as ->. congruence.
    + destruct (append_user_event_spec (user_of ev) ev g Hnd) as (Hnd' & Hkeys & Hin).
      split; [exact Hnd'|]. split.
      * intros u evs' Hu.
        destruct (Hin u evs' Hu) as [[Hne Hold]|[-> [(evs & Hold & ->)|[Hnew ->]]]].
        -- destruct (Hg u evs' Hold) as [Hue ->]. split; [exact Hue|].
           rewrite filter_app, filter_cons_False, filter_nil, app_nil_r; [reflexivity|].
           intros Heq. by apply Hne.
        -- destruct (Hg _ evs Hold) as [Hue ->]. split; [exact Hue|].
           rewrite filter_app, filter_cons_True, filter_nil; reflexivity.
        -- split; [exact Hempty|].
           rewrite filter_app, filter_cons_True, filter_nil by reflexivity.
           assert (Hnil : filter (fun e => user_of e = user_of ev) l = []).
           { destruct (filter _ l) as [|y k] eqn:Hf; [reflexivity|].
             assert (Hy : y ∈ filter (fun e => user_of e = user_of ev) l)
               by (rewrite Hf; apply list_elem_of_here).
             apply list_elem_of_filter in Hy as [Hyu Hy].
             exfalso. apply Hnew. rewrite <- Hyu. apply Hcov; [exact Hy|].
             by rewrite Hyu. }
           by rewrite Hnil.
      * intros e He Hne. apply Hkeys.
        apply elem_of_app in He as [He|He]; [right; by apply Hcov|].
        apply list_elem_of_singleton in He as ->. by left.
Qed.
End Grouping.

Lemma elem_of_build_debug_sessions (events_ : list Event) (s : DebugSession) :
  s ∈ build_debug_sessions events_ <->
  exists uid evs, (uid, evs) ∈ group_by_user events_ /\ s ∈ user_sessions uid evs.
Proof.
  unfold build_debug_sessions. rewrite list_elem_of_In, in_flat_map. split.
  - intros ([uid evs] & Hg & Hs). exists uid, evs.
    by rewrite !list_elem_of_In.
  - intros (uid & evs & Hg & Hs). exists (uid, evs).
    by rewrite <- !list_elem_of_In.
Qed.

(** The events attached to a session are events of the session's user with
    a timestamp inside the session's window: the part of claim C1 that
    holds. *)
Lemma attached_events_in_window (events_ : list Event) (s : DebugSession) (ev : Event) :
  s ∈ build_debug_sessions events_ -> ev ∈ events s ->
  ev ∈ events_ /\ user_of ev = user_id s
  /\ start_ts s <= timestamp ev <= end_ts s.
Proof.
  intros Hs Hev. apply elem_of_build_debug_sessions in Hs as (uid & evs & Hg & Hs).
  destruct (group_by_user_grouped events_) as (_ & Hgroups & _).
  destruct (Hgroups uid evs Hg) as [_ ->].
  pose proof (user_sessions_built uid (filter (fun e => user_of e = uid) events_)) as Hb.
  rewrite Forall_forall in Hb. specialize (Hb s Hs). unfold built_by in Hb.
  rewrite Hb in Hev |- *. cbn [events set_events new_session user_id start_ts end_ts] in *.
  apply list_elem_of_In, filter_In in Hev as [Hev Hwin].
  apply list_elem_of_In in Hev. rewrite sort_by_timestamp_perm in Hev.
  apply list_elem_of_filter in Hev as [Hu Hev].
  unfold in_window in Hwin. apply andb_prop in Hwin as [H1 H2].
  repeat split; [exact Hev | exact Hu | lia | lia].
Qed.

(** ** How far the sessions of one user overlap *)

Lemma pair_inits_start (uid : string) (evs stop_events da_inits : list Event)
    (idx : nat) :
  map start_ts (pair_inits uid evs stop_events da_inits idx)
  = map timestamp da_inits.
Proof.
  revert idx. induction da_inits as [|init_ev rest IH]; intros idx;
    cbn [pair_inits map]; [reflexivity|].
  destruct (pair_step stop_events (timestamp init_ev) (next_init_of rest) idx)
    as [end_candidate idx'].
  cbn [map]. f_equal. apply IH.
Qed.

(** The end candidate is not after the next init marker. *)
Lemma pair_step_end_le (stop_events : list Event) (init_ts n : Z) (idx : nat) :
  exists e,
    (pair_step stop_events init_ts (Some n) idx).1 = Some e /\ e <= n.
Proof.
  unfold pair_step.
  destruct (scan_stops init_ts (drop idx stop_events) idx) as [j [t|]];
    cbn [min_inf fst]; eexists; (split; [reflexivity | lia]).
Qed.

(** A session ends no later than every later session of the user starts. *)
Lemma pair_inits_ordered (uid : string) (evs stop_events da_inits : list Event)
    (idx : nat) :
  StronglySorted ts_le da_inits ->
  StronglySorted (fun s s' => end_ts s <= start_ts s')
                 (pair_inits uid evs stop_events da_inits idx).
Proof.
  intros Hs. revert idx.
  induction Hs as [|init_ev rest Hs IH Hinit]; intros idx;
    cbn [pair_inits]; [constructor|].
  pose proof (pair_inits_start uid evs stop_events rest) as Hstart.
  destruct rest as [|nxt rest].
  - destruct (pair_step stop_events (timestamp init_ev) (next_init_of []) idx).
    repeat constructor.
  - destruct (pair_step_end_le stop_events (timestamp init_ev) (timestamp nxt) idx)
      as (e & He & Hle).
    cbn [next_init_of] in *.
    destruct (pair_step stop_events (timestamp init_ev) (Some (timestamp nxt)) idx)
      as [end_candidate idx'].
    cbn [fst] in He. subst end_candidate.
    constructor; [apply IH|].
    cbn [end_ts set_events new_session].
    specialize (Hstart idx').
    assert (Hall : Forall (fun t => e <= t) (map timestamp (nxt :: rest))).
    { apply Forall_map. apply Forall_cons. split; [exact Hle|].
      apply StronglySorted_inv in Hs as [_ Hnxt].
      eapply Forall_impl; [exact Hnxt|]. unfold ts_le. cbn. intros; lia. }
    rewrite <- Hstart, Forall_map in Hall. exact Hall.
Qed.

Lemma sorted_lookup_lt {A} (R : A -> A -> Prop) (l : list A) (i j : nat) (x y : A) :
  StronglySorted R l -> l !! i = Some x -> l !! j = Some y -> (i < j)%nat -> R x y.
Proof.
  intros Hs. revert i j. induction Hs as [|a l Hs IH Ha]; intros i j Hi Hj Hij.
  - discriminate.
  - destruct j as [|j]; [lia|]. destruct i as [|i]; cbn in Hi, Hj.
    + injection Hi as <-. rewrite Forall_forall in Ha. apply Ha.
      eapply list_elem_of_lookup_2. exact Hj.
    + apply (IH i j Hi Hj). lia.
Qed.

(** Two sessions of one user share at most the events at the instant where
    the earlier one ends and the later one starts. *)
Lemma sessions_overlap_at_boundary (uid : string) (evs : list Event)
    (i j : nat) (s s' : DebugSession) (ev : Event) :
  user_sessions uid evs !! i = Some s ->
  user_sessions uid evs !! j = Some s' ->
  (i < j)%nat ->
  ev ∈ events s -> ev ∈ events s' ->
  timestamp ev = end_ts s /\ timestamp ev = start_ts s'.
Proof.
  intros Hi Hj Hij Hev Hev'.
  pose proof (user_sessions_built uid evs) as Hb. rewrite Forall_forall in Hb.
  assert (Hw : forall x, x ∈ user_sessions uid evs -> ev ∈ events x ->
                         start_ts x <= timestamp ev <= end_ts x).
  { intros x Hx Hin. specialize (Hb x Hx). unfold built_by in Hb.
    rewrite Hb in Hin. cbn [events set_events new_session] in Hin.
    apply list_elem_of_In, filter_In in Hin as [_ Hwin].
    unfold in_window in Hwin. apply andb_prop in Hwin as [H1 H2]. lia. }
  pose proof (Hw s (list_elem_of_lookup_2 _ _ _ Hi) Hev) as H1.
  pose proof (Hw s' (list_elem_of_lookup_2 _ _ _ Hj) Hev') as H2.
  assert (Hord : end_ts s <= start_ts s').
  { rewrite user_sessions_unfold in Hi, Hj.
    eapply (sorted_lookup_lt (fun s s' => end_ts s <= start_ts s'));
      [|exact Hi | exact Hj | exact Hij].
    apply pair_inits_ordered.
    destruct (collect_markers_sublist (sort_by_timestamp evs)) as [Hsub _].
    eapply sublist_sorted; [exact Hsub | apply sort_by_timestamp_sorted]. }
  lia.
Qed.

(** ** The parser on some lines *)

Example parse_stop_line :
  let '(a, p) :=
    parse_activity "[activity] stop reason=end-stepping-range  thread=1" in
  a = "stop" /\ dict_get p "reason" EmptyString = "end-stepping-range"
  /\ dict_get p "thread" EmptyString = "1"
  /\ dict_get p "session" EmptyString = EmptyString.
Proof. vm_compute. auto. Qed.

Example parse_init_marker :
  parse_activity "[OTel] Debugger Adapter initialized" = (EmptyString, ∅).
Proof. reflexivity. Qed.

Example parse_needs_space :
  Re.match_activity "[activity]stop" = None.
Proof. reflexivity. Qed.

Example parse_last_key_wins :
  dict_get (parse_activity "[activity] select_frame session=3 session=7").2
           "session" EmptyString = "7".
Proof. vm_compute. reflexivity. Qed.

Example findall_skips_broken_pairs :
  Re.findall_kv 0 "a= b=c -x=1 y==2 =z" = [("b", "c"); ("x", "1"); ("y", "=2")].
Proof. vm_compute. reflexivity. Qed.

(** * Further properties *)

Import More.

(** ** The parser *)

Lemma all_chars_nil (p : ascii -> bool) : all_chars p EmptyString.
Proof. constructor. Qed.

Lemma all_chars_cons (p : ascii -> bool) (c : ascii) (s : string) :
  all_chars p (String c s) <-> p c = true /\ all_chars p s.
Proof.
  unfold all_chars. cbn. split.
  - intros H. inversion H; auto.
  - intros [? ?]. by constructor.
Qed.

(** [span] splits the string, takes only characters of the class, and
    stops at the first character outside of it. *)
Lemma span_spec (p : ascii -> bool) (s : string) :
  let '(a, b) := Re.span p s in
  s = (a +:+ b)%string /\ all_chars p a
  /\ match b with
     | EmptyString => True
     | String c _ => p c = false
     end.
Proof.
  induction s as [|c s IH]; cbn [Re.span].
  - repeat split. apply all_chars_nil.
  - destruct (p c) eqn:Hc.
    + destruct (Re.span p s) as [a b]. destruct IH as (-> & Ha & Hb).
      repeat split; [|exact Hb]. by apply all_chars_cons.
    + repeat split; [apply all_chars_nil | exact Hc].
Qed.

Lemma strip_prefix_spec (p s r : string) :
  Re.strip_prefix p s = Some r -> s = (p +:+ r)%string.
Proof.
  revert s. induction p as [|a p IH]; intros s; cbn.
  - by intros [= ->].
  - destruct s as [|b s]; [discriminate|].
    destruct (Ascii.eqb_spec a b) as [->|]; [|discriminate].
    intros H. by rewrite (IH s H).
Qed.

Lemma prefix_app (p r : string) : String.prefix p (p +:+ r) = true.
Proof.
  induction p as [|a p IH].
  - by destruct r.
  - change (String a p +:+ r)%string with (String a (p +:+ r)).
    cbn [String.prefix]. destruct (ascii_dec a a); [exact IH | congruence].
Qed.

(** What a match of the activity pattern returns. *)
Lemma match_activity_spec (body action params_str : string) :
  Re.match_activity body = Some (action, params_str) ->
  String.prefix "[activity]" body = true
  /\ action <> EmptyString /\ all_chars Re.non_space action
  /\ all_chars Re.is_dot params_str.
Proof.
  unfold Re.match_activity.
  destruct (Re.strip_prefix "[activity]" body) as [r|] eqn:Hr; [|discriminate].
  apply strip_prefix_spec in Hr as ->.
  destruct (Re.span Re.is_space r) as [ws r1].
  destruct (Re.is_empty ws); [discriminate|].
  pose proof (span_spec Re.non_space r1) as H1.
  destruct (Re.span Re.non_space r1) as [a r2].
  destruct (Re.is_empty a) eqn:Ha; [discriminate|].
  destruct (Re.span Re.is_space r2) as [? r3].
  pose proof (span_spec Re.is_dot r3) as H3.
  destruct (Re.span Re.is_dot r3) as [ps ?].
  intros [= <- <-]. split; [apply prefix_app|].
  split; [by destruct a|]. split; [apply H1 | apply H3].
Qed.

(** What one match of the key-value pattern returns. *)
Lemma match_kv_spec (s k v : string) :
  Re.match_kv s = Some (k, v) -> well_formed_pair (k, v).
Proof.
  unfold Re.match_kv.
  pose proof (span_spec Re.is_word s) as Hk.
  destruct (Re.span Re.is_word s) as [k' r].
  destruct (Re.is_empty k') eqn:Hk'; [discriminate|].
  destruct r as [|c r']; [discriminate|].
  destruct (Ascii.eqb c "="); [|discriminate].
  pose proof (span_spec Re.non_space r') as Hv.
  destruct (Re.span Re.non_space r') as [v' ?].
  destruct (Re.is_empty v') eqn:Hv'; [discriminate|].
  intros [= <- <-]. unfold well_formed_pair. cbn.
  split; [by destruct k'|]. split; [apply Hk|].
  split; [by destruct v' | apply Hv].
Qed.

Lemma findall_kv_spec (skip : nat) (s : string) :
  Forall well_formed_pair (Re.findall_kv skip s).
Proof.
  revert skip. induction s as [|c s IH]; intros skip; cbn [Re.findall_kv].
  - constructor.
  - destruct skip as [|n]; [|apply IH].
    destruct (Re.match_kv (String c s)) as [[k v]|] eqn:Hm; [|apply IH].
    constructor; [by apply match_kv_spec in Hm | apply IH].
Qed.

Lemma params_lookup (l : list (string * string)) (m : gmap string string)
    (k v : string) :
  fold_left (fun params kv => <[kv.1 := kv.2]> params) l m !! k = Some v ->
  (k, v) ∈ l \/ m !! k = Some v.
Proof.
  revert m. induction l as [|[k' v'] l IH]; intros m; cbn [fold_left].
  - by right.
  - intros H. destruct (IH _ H) as [Hin|Hm].
    + left. by apply list_elem_of_further.
    + cbn in Hm. destruct (decide (k' = k)) as [->|Hne].
      * rewrite lookup_insert_eq in Hm. injection Hm as ->. left. apply list_elem_of_here.
      * rewrite lookup_insert_ne in Hm by exact Hne. by right.
Qed.

(** [parse_activity] returns either the empty action with no parameters,
    or, for a body that starts with the tag [[activity]], a non-empty action
    without white space. *)
Theorem parse_activity_action (body : string) :
  let '(action, params) := parse_activity body in
  (action = EmptyString /\ params = ∅)
  \/ (String.prefix "[activity]" body = true
      /\ action <> EmptyString /\ all_chars Re.non_space action).
Proof.
  unfold parse_activity.
  destruct (Re.match_activity body) as [[action params_str]|] eqn:Hm.
  - right. apply match_activity_spec in Hm as (Hp & Ha & Hs & _). auto.
  - left. auto.
Qed.

(** Every parameter that [parse_activity] returns has a non-empty key of
    word characters and a non-empty value without white space. *)
Theorem parse_activity_params (body k v : string) :
  (parse_activity body).2 !! k = Some v -> well_formed_pair (k, v).
Proof.
  unfold parse_activity.
  destruct (Re.match_activity body) as [[action params_str]|]; cbn [snd].
  - intros H. apply params_lookup in H as [Hin|H]; [|by rewrite lookup_empty in H].
    pose proof (findall_kv_spec 0 params_str) as Hall.
    rewrite Forall_forall in Hall. by apply Hall.
  - by rewrite lookup_empty.
Qed.

Lemma parse_activity_params_witness :
  well_formed_pair ("reason", "end-stepping-range").
Proof.
  apply (parse_activity_params "[activity] stop reason=end-stepping-range").
  vm_compute. reflexivity.
Defined.

(** The markers of the builder mean nothing to the interpreter: an init
    marker and an API stop marker are not activity lines, and the stop
    marker of the extension is an activity line whose action no block
    knows; the loop body returns the session as it got it. *)
Theorem markers_are_no_ops (s : DebugSession) (ev : Event) :
  is_marker ev = true -> Interp.handle_event s ev = s.
Proof.
  unfold is_marker, Builder.is_da_init, Builder.is_ext_stop, Builder.is_api_stop.
  intros H. rewrite handle_event_blocks. unfold action_of, params_of.
  assert (Hp : parse_activity (body ev) = (EmptyString, ∅)
               \/ parse_activity (body ev) = ("debug_session_stopped", ∅)).
  { repeat (apply orb_prop in H as [H|H]); apply andb_prop in H as [_ H].
    - left. destruct (body ev) as [|c1 b]; [discriminate H|].
      cbn [String.prefix] in H.
      destruct (ascii_dec "[" c1) as [<-|]; [|discriminate].
      destruct b as [|c2 b]; [discriminate H|].
      cbn [String.prefix] in H.
      destruct (ascii_dec "O" c2) as [<-|]; [|discriminate].
      reflexivity.
    - right. apply String.eqb_eq in H. rewrite H. vm_compute. reflexivity.
    - left. apply String.eqb_eq in H. rewrite H. reflexivity. }
  destruct Hp as [-> | ->]; [reflexivity|].
  cbn [fst snd Re.is_empty].
  change (Interp.track_debuggee ∅ s) with s.
  change (Interp.step_operation "debug_session_stopped" (timestamp ev) s) with s.
  change (Interp.stop_event "debug_session_stopped" (service_of ev) ∅ (timestamp ev) s)
    with s.
  change (Interp.continue_event "debug_session_stopped" (service_of ev) (timestamp ev) s)
    with s.
  change (Interp.step_resume "debug_session_stopped" (timestamp ev) s) with s.
  change (Interp.breakpoint_operation "debug_session_stopped" s) with s.
  change (Interp.frame_switch "debug_session_stopped" ∅ s) with s.
  change (Interp.pause_action "debug_session_stopped" s) with s.
  change (Interp.jump_action "debug_session_stopped" s) with s.
  reflexivity.
Qed.

Lemma markers_are_no_ops_witness :
  Interp.handle_event (new_session "u1" EmptyString 0 10) (Scenario.stop_at 10)
  = new_session "u1" EmptyString 0 10.
Proof. apply markers_are_no_ops. vm_compute. reflexivity. Defined.

(** ** The counters as numbers of events *)

Lemma count_events_cons (p : Event -> bool) (e : Event) (l : list Event) :
  count_events p (e :: l) = bump (p e) + count_events p l.
Proof.
  unfold count_events. cbn [List.filter]. destruct (p e); cbn [length bump]; lia.
Qed.

Lemma filter_perm (p : Event -> bool) (l l' : list Event) :
  l ≡ₚ l' -> List.filter p l ≡ₚ List.filter p l'.
Proof.
  induction 1 as [|x l l' _ IH|x y l|l1 l2 l3 _ IH1 _ IH2]; cbn [List.filter].
  - reflexivity.
  - destruct (p x); [by constructor | exact IH].
  - destruct (p x), (p y); try reflexivity. apply perm_swap.
  - by etransitivity.
Qed.

Lemma count_events_perm (p : Event -> bool) (l l' : list Event) :
  l ≡ₚ l' -> count_events p l = count_events p l'.
Proof.
  intros H. unfold count_events. f_equal.
  apply Permutation_length. by apply filter_perm.
Qed.

Lemma count_events_nonneg (p : Event -> bool) (l : list Event) :
  0 <= count_events p l.
Proof. unfold count_events. lia. Qed.

Lemma count_events_mono (p q : Event -> bool) (l : list Event) :
  (forall e, p e = true -> q e = true) -> count_events p l <= count_events q l.
Proof.
  intros Hpq. induction l as [|e l IH]; [reflexivity|].
  rewrite !count_events_cons. specialize (Hpq e).
  destruct (p e), (q e); cbn [bump]; first [lia | discriminate (Hpq eq_refl)].
Qed.

Lemma count_events_pos (p : Event -> bool) (l : list Event) :
  0 < count_events p l <-> exists e, e ∈ l /\ p e = true.
Proof.
  induction l as [|e l IH].
  - split; [unfold count_events; cbn; lia|]. intros (e & He & _). by apply elem_of_nil in He.
  - rewrite count_events_cons. pose proof (count_events_nonneg p l) as Hn. split.
    + intros H. destruct (p e) eqn:He.
      * exists e. split; [apply list_elem_of_here | exact He].
      * cbn [bump] in H. destruct IH as [IH _].
        destruct IH as (e' & He' & Hp); [lia|].
        exists e'. split; [by apply list_elem_of_further | exact Hp].
    + intros (e' & He' & Hp). apply elem_of_cons in He' as [->|He'].
      * rewrite Hp. cbn [bump]. lia.
      * destruct IH as [_ IH]. specialize (IH (ex_intro _ e' (conj He' Hp))).
        destruct (p e); cbn [bump]; lia.
Qed.

Lemma total_counts_counts (evs : list Event) : total_counts evs = counts_of evs.
Proof.
  induction evs as [|e evs IH]; [reflexivity|].
  cbn [total_counts foldr]. fold (total_counts evs). rewrite IH.
  unfold counts_of. rewrite !count_events_cons.
  unfold event_counts, is_step_event, is_breakpoint_event, is_frame_event,
    is_dbt_frame_event, is_pause_event, is_jump_event, is_expand_event,
    is_evaluate_event, is_adapter_continue, has_action.
  destruct (Re.is_empty (action_of e)) eqn:Hempty.
  - apply is_empty_true in Hempty. rewrite Hempty.
    cbn [zip_with]. reflexivity.
  - cbn [zip_with].
    repeat (match goal with |- _ :: _ = _ :: _ => f_equal end); lia.
Qed.

Lemma counts_of_perm (l l' : list Event) : l ≡ₚ l' -> counts_of l = counts_of l'.
Proof.
  intros H. unfold counts_of.
  by rewrite !(count_events_perm _ l l' H).
Qed.

(** The counters after [process_session]: the counters before plus the
    numbers of events. *)
Lemma process_session_counts (s : DebugSession) :
  counters_of (process_session s)
  = zip_with Z.add (counters_of s) (counts_of (events s)).
Proof.
  destruct (process_session_spec s) as (_ & C & _). rewrite C, total_counts_counts.
  f_equal. apply counts_of_perm, sort_by_timestamp_perm.
Qed.

Lemma viewed_all_perm (l l' : list Event) : l ≡ₚ l' -> viewed_all l = viewed_all l'.
Proof.
  intros H. unfold viewed_all. apply set_eq. intros x.
  rewrite !elem_of_union_list. split; intros (X & HX & Hx); exists X; split; try exact Hx.
  - by rewrite <- H.
  - by rewrite H.
Qed.

(** A session of the builder has every counter at zero. *)
Lemma built_counters (uid : string) (evs : list Event) (s : DebugSession) :
  built_by uid evs s ->
  counters_of s = [0; 0; 0; 0; 0; 0; 0; 0]
  /\ unique_sessions_viewed s = ∅
  /\ step_durations s = [] /\ pause_durations s = []
  /\ _in_stepping s = false /\ _is_paused s = false.
Proof. intros ->. repeat split. Qed.

Lemma processed_sessions_Forall (P : DebugSession -> Prop) (events_ : list Event) :
  (forall uid evs s,
      built_by uid (sort_by_timestamp evs) s -> start_ts s <= end_ts s ->
      P (process_session s)) ->
  Forall P (Report.processed_sessions events_).
Proof.
  intros HP. unfold Report.processed_sessions. apply Forall_map.
  apply build_debug_sessions_Forall. intros uid evs.
  pose proof (user_sessions_built uid evs) as Hb.
  pose proof (user_sessions_window uid evs) as Hw.
  rewrite Forall_forall in Hb, Hw |- *. intros s Hs.
  eapply HP; [by apply Hb | by apply Hw].
Qed.

(** Each counter grows by the number of events of its kind among the
    session's events: steps, [set_breakpoints], [select_frame], those with
    [after_boundary=true], [pause], continues of the adapter, jumps, and
    [expand_variable] plus [evaluate]. *)
Theorem counters_count_events (s : DebugSession) :
  let s' := process_session s in
  let evs := events s in
  step_count s' = step_count s + count_events is_step_event evs
  /\ breakpoint_ops s' = breakpoint_ops s + count_events is_breakpoint_event evs
  /\ frame_switches s' = frame_switches s + count_events is_frame_event evs
  /\ dbt_frame_switches s'
     = dbt_frame_switches s + count_events is_dbt_frame_event evs
  /\ pause_count s' = pause_count s + count_events is_pause_event evs
  /\ continue_count s' = continue_count s + count_events is_adapter_continue evs
  /\ jump_count s' = jump_count s + count_events is_jump_event evs
  /\ variable_examinations s'
     = variable_examinations s
       + (count_events is_expand_event evs + count_events is_evaluate_event evs).
Proof.
  cbv zeta. pose proof (process_session_counts s) as C.
  unfold counters_of, counts_of in C. cbn [zip_with] in C.
  injection C as -> -> -> -> -> -> -> ->. repeat split.
Qed.

(** The counters and the set of debuggee sessions do not depend on the
    order of the event list at all, ties included: every permutation gives
    the same ones. *)
Theorem counters_order_independent (s : DebugSession) (evs' : list Event) :
  evs' ≡ₚ events s ->
  counters_of (process_session (set_events evs' s)) = counters_of (process_session s)
  /\ unique_sessions_viewed (process_session (set_events evs' s))
     = unique_sessions_viewed (process_session s).
Proof.
  intros Hperm. split.
  - rewrite !process_session_counts. cbn [events set_events].
    by rewrite (counts_of_perm _ _ Hperm).
  - destruct (process_session_spec (set_events evs' s)) as (_ & _ & -> & _).
    destruct (process_session_spec s) as (_ & _ & -> & _).
    cbn [events set_events unique_sessions_viewed]. f_equal.
    apply viewed_all_perm. by rewrite !sort_by_timestamp_perm.
Qed.

Lemma counters_order_independent_witness :
  counters_of
    (process_session
       (Scenario.tie_session [Scenario.stop_10; Scenario.step_over_10]))
  = counters_of
      (process_session
         (Scenario.tie_session [Scenario.step_over_10; Scenario.stop_10])).
Proof.
  apply (counters_order_independent
           (Scenario.tie_session [Scenario.step_over_10; Scenario.stop_10])
           [Scenario.stop_10; Scenario.step_over_10]).
  apply perm_swap.
Defined.

(** In the output of the pipeline the frame switches after a boundary are
    among the frame switches: [0 <= dbt_frame_switches <= frame_switches]. *)
Theorem dbt_frame_switches_bounded (events_ : list Event) :
  Forall (fun s => 0 <= dbt_frame_switches s <= frame_switches s)
         (Report.processed_sessions events_).
Proof.
  apply processed_sessions_Forall. intros uid evs s Hs _.
  pose proof (process_session_counts s) as C.
  destruct (built_counters _ _ _ Hs) as (C0 & _). rewrite C0 in C.
  unfold counters_of, counts_of in C. cbn [zip_with] in C.
  injection C as _ _ -> -> _ _ _ _.
  pose proof (count_events_nonneg is_dbt_frame_event (events s)).
  pose proof (count_events_mono is_dbt_frame_event is_frame_event (events s)) as Hm.
  assert (count_events is_dbt_frame_event (events s)
          <= count_events is_frame_event (events s)); [|lia].
  apply Hm. unfold is_dbt_frame_event, is_frame_event. intros e He.
  by apply andb_prop in He as [He _].
Qed.

(** ** Invariants of the loop body *)

(** A property that every block keeps is kept by the loop body. *)
Lemma handle_event_ind (P : DebugSession -> Prop) (s : DebugSession) (ev : Event) :
  let a := action_of ev in
  let p := params_of ev in
  let svc := service_of ev in
  let ts := timestamp ev in
  (forall x, P x -> P (Interp.track_debuggee p x)) ->
  (forall x, P x -> P (Interp.step_operation a ts x)) ->
  (forall x, P x -> P (Interp.stop_event a svc p ts x)) ->
  (forall x, P x -> P (Interp.continue_event a svc ts x)) ->
  (forall x, P x -> P (Interp.step_resume a ts x)) ->
  (forall x, P x -> P (Interp.breakpoint_operation a x)) ->
  (forall x, P x -> P (Interp.frame_switch a p x)) ->
  (forall x, P x -> P (Interp.pause_action a x)) ->
  (forall x, P x -> P (Interp.jump_action a x)) ->
  (forall x, P x -> P (Interp.variable_examination a x)) ->
  P s -> P (Interp.handle_event s ev).
Proof.
  cbv zeta. intros H1 H2 H3 H4 H5 H6 H7 H8 H9 H10 Hs.
  rewrite handle_event_blocks. cbv zeta.
  destruct (Re.is_empty (action_of ev)); [exact Hs|].
  apply H10, H9, H8, H7, H6, H5, H4, H3, H2, H1, Hs.
Qed.

Lemma sum_list_snoc (l : list Z) (x : Z) :
  Report.sum_list (l ++ [x]) = Report.sum_list l + x.
Proof. unfold Report.sum_list. by rewrite fold_left_app. Qed.

Ltac unfold_all_blocks :=
  unfold Interp.variable_examination, Interp.jump_action, Interp.pause_action,
    Interp.frame_switch, Interp.breakpoint_operation, Interp.step_resume,
    Interp.continue_event, Interp.stop_event, Interp.step_operation,
    Interp.track_debuggee.

(** Proves that a block keeps an invariant of the fields: the session is
    taken apart, every condition is split. *)
Ltac fields_simpl_all :=
  cbn [user_id da_session_id ext_session_id start_ts end_ts events step_count
       breakpoint_ops frame_switches dbt_frame_switches pause_count
       continue_count jump_count signal_count variable_examinations
       unique_sessions_viewed step_start_times step_durations
       pause_start_times pause_durations _in_stepping _last_step_ts
       _is_paused _last_pause_ts bump andb orb negb] in *.

Ltac keeps_invariant :=
  intros x Hx; destruct x; unfold_all_blocks; sess_simpl; fields_simpl_all;
  repeat match goal with
    | |- context [if ?b then _ else _] =>
        lazymatch b with
        | context [if _ then _ else _] => fail
        | _ => destruct_cond b; sess_simpl; fields_simpl_all
        end
    end;
  sess_simpl; fields_simpl_all.

Lemma handle_event_steps_cover (s : DebugSession) (ev : Event) :
  steps_cover_intervals s -> steps_cover_intervals (Interp.handle_event s ev).
Proof.
  apply handle_event_ind; unfold steps_cover_intervals;
    keeps_invariant; rewrite ?length_app; cbn [length] in *; lia.
Qed.

Lemma run_events_steps_cover (evs : list Event) (s : DebugSession) :
  steps_cover_intervals s -> steps_cover_intervals (Interp.run_events evs s).
Proof.
  revert s. induction evs as [|e evs IH]; intros s Hs; [exact Hs|].
  rewrite run_events_cons. by apply IH, handle_event_steps_cover.
Qed.

Lemma track_ok_advance (t0 now now' : Z) (open : bool) (since : Z) (l : list Z) :
  now <= now' -> track_ok t0 now open since l -> track_ok t0 now' open since l.
Proof.
  intros Hle (Hn & Ho & Hc). split; [exact Hn|]. split.
  - intros H. specialize (Ho H). lia.
  - intros H. specialize (Hc H). lia.
Qed.

Ltac track_tac :=
  unfold intervals_ok, track_ok in *;
  repeat match goal with
    | H : _ /\ _ |- _ => destruct H
    end;
  repeat match goal with
    | H : ?b = true -> _ |- _ => is_var b; destruct b
    end;
  repeat match goal with
    | H : _ /\ _ |- _ => destruct H
    | H : ?b = ?b -> _ |- _ => specialize (H eq_refl)
    | H : true = false -> _ |- _ => clear H
    | H : false = true -> _ |- _ => clear H
    end;
  repeat split; intros; try discriminate;
  rewrite ?sum_list_snoc; try lia; try assumption;
  try (apply Forall_app; split; [assumption | repeat constructor; lia]).

Lemma handle_event_intervals_ok (t0 : Z) (s : DebugSession) (ev : Event) :
  intervals_ok t0 (timestamp ev) s ->
  intervals_ok t0 (timestamp ev) (Interp.handle_event s ev).
Proof.
  apply handle_event_ind; unfold intervals_ok, track_ok; keeps_invariant; track_tac.
Qed.

Lemma run_events_intervals_ok (t0 hi : Z) (evs : list Event) :
  StronglySorted ts_le evs ->
  forall (now : Z) (s : DebugSession),
    Forall (fun e => now <= timestamp e <= hi) evs -> now <= hi ->
    intervals_ok t0 now s -> intervals_ok t0 hi (Interp.run_events evs s).
Proof.
  induction 1 as [|e evs Hs IH He]; intros now s Hall Hle Hok.
  - destruct Hok as [H1 H2]. split; eapply track_ok_advance; eassumption.
  - apply Forall_cons in Hall as [[Hlo Hhi] Hall].
    rewrite run_events_cons. apply (IH (timestamp e)); [|exact Hhi|].
    + rewrite Forall_forall in He, Hall |- *. intros y Hy.
      specialize (He y Hy). specialize (Hall y Hy). unfold ts_le in He. lia.
    + apply handle_event_intervals_ok.
      destruct Hok as [H1 H2]. split; eapply track_ok_advance; eassumption.
Qed.

(** ** Stepping and pause intervals in the output of the pipeline *)

(** The events of a built session lie in its window. *)
Lemma built_events_in_window (uid : string) (evs : list Event) (s : DebugSession) :
  built_by uid evs s ->
  Forall (fun e => start_ts s <= timestamp e <= end_ts s) (events s).
Proof.
  intros Hb. apply Forall_forall. intros e He. rewrite Hb in He.
  cbn [events set_events new_session] in He.
  apply list_elem_of_In, filter_In in He as [_ Hw].
  unfold Builder.in_window in Hw. apply andb_prop in Hw as [H1 H2]. lia.
Qed.

Lemma processed_intervals_ok (uid : string) (evs : list Event) (s : DebugSession) :
  built_by uid evs s -> start_ts s <= end_ts s ->
  intervals_ok (start_ts s) (end_ts s) (process_session s).
Proof.
  intros Hb Hle. unfold process_session.
  apply (run_events_intervals_ok (start_ts s) (end_ts s) _
           (sort_by_timestamp_sorted (events s)) (start_ts s)); [|exact Hle|].
  - pose proof (built_events_in_window uid evs s Hb) as Hw.
    rewrite Forall_forall in Hw |- *. intros e He. apply Hw.
    by rewrite sort_by_timestamp_perm in He.
  - destruct (built_counters uid evs s Hb) as (_ & _ & Hd & Hp & Hi & Hq).
    unfold intervals_ok, track_ok.
    cbn [set_events _in_stepping _is_paused _last_step_ts _last_pause_ts
         step_durations pause_durations].
    rewrite Hd, Hp, Hi, Hq. cbn.
    repeat split; try constructor; intros; try discriminate; lia.
Qed.

(** No duration that the pipeline reports is negative. *)
Theorem durations_not_negative (events_ : list Event) :
  Forall (fun s => Forall (fun d => 0 <= d) (step_durations s)
                   /\ Forall (fun d => 0 <= d) (pause_durations s))
         (Report.processed_sessions events_).
Proof.
  apply processed_sessions_Forall. intros uid evs s Hb Hle.
  destruct (processed_intervals_ok _ _ _ Hb Hle) as [(H1 & _) (H2 & _)]. auto.
Qed.

(** The stepping time of a session, and its pause time, are at most the
    length of its window: [sum(step_durations) <= end_ts - start_ts] and
    [sum(pause_durations) <= end_ts - start_ts]. *)
Theorem durations_within_window (events_ : list Event) :
  Forall (fun s =>
            Report.sum_list (step_durations s) <= end_ts s - start_ts s
            /\ Report.sum_list (pause_durations s) <= end_ts s - start_ts s)
         (Report.processed_sessions events_).
Proof.
  apply processed_sessions_Forall. intros uid evs s Hb Hle.
  pose proof (processed_intervals_ok _ _ _ Hb Hle) as [(_ & H1 & H1') (_ & H2 & H2')].
  destruct (process_session_spec s) as (F & _). unfold frame_of in F.
  cbn [set_events start_ts end_ts] in F. injection F as _ _ _ -> -> _ _ _ _.
  split.
  - destruct (_in_stepping (process_session s));
      [specialize (H1 eq_refl) | specialize (H1' eq_refl)]; lia.
  - destruct (_is_paused (process_session s));
      [specialize (H2 eq_refl) | specialize (H2' eq_refl)]; lia.
Qed.

(** Every stepping interval that the pipeline reports was opened by a
    counted step: there are at most [step_count] stepping durations, one
    fewer when an interval is still open at the end. *)
Theorem stepping_durations_at_most_steps (events_ : list Event) :
  Forall steps_cover_intervals (Report.processed_sessions events_).
Proof.
  apply processed_sessions_Forall. intros uid evs s Hb _.
  unfold process_session. apply run_events_steps_cover.
  rewrite Hb. unfold steps_cover_intervals. cbn. lia.
Qed.

(** ** The grouping and the number of sessions *)

Lemma append_user_event_events (uid : string) (ev : Event)
    (g : list (string * list Event)) :
  grouped_events (append_user_event uid ev g) ≡ₚ ev :: grouped_events g.
Proof.
  unfold grouped_events.
  induction g as [|[u evs] g IH]; cbn [append_user_event flat_map snd].
  - reflexivity.
  - destruct (String.eqb u uid); cbn [flat_map snd].
    + rewrite <- app_assoc. cbn [app]. symmetry. apply Permutation_middle.
    + rewrite IH. symmetry. apply Permutation_middle.
Qed.

Lemma group_by_user_events (l : list Event) :
  grouped_events (group_by_user l)
  ≡ₚ List.filter (fun e => negb (Re.is_empty (user_of e))) l.
Proof.
  unfold group_by_user. induction l as [|ev l IH] using rev_ind; [reflexivity|].
  rewrite fold_left_app, List.filter_app. cbn [fold_left List.filter].
  destruct (negb (Re.is_empty (user_of ev))).
  - rewrite append_user_event_events, IH. apply Permutation_cons_append.
  - by rewrite app_nil_r.
Qed.

Lemma collect_markers_inits (evs : list Event) :
  (collect_markers evs).1 = List.filter is_da_init evs.
Proof.
  induction evs as [|ev evs IH]; [reflexivity|].
  cbn [collect_markers List.filter].
  destruct (collect_markers evs) as [da_inits stop_events]. cbn [fst] in IH.
  destruct (is_da_init ev); [|destruct (is_ext_stop ev); [|destruct (is_api_stop ev)]];
    cbn [fst]; by rewrite IH.
Qed.

Lemma pair_inits_length (uid : string) (evs stop_events da_inits : list Event)
    (idx : nat) :
  length (pair_inits uid evs stop_events da_inits idx) = length da_inits.
Proof.
  rewrite <- (length_map start_ts), pair_inits_start. apply length_map.
Qed.

Lemma user_sessions_length (uid : string) (evs : list Event) :
  Z.of_nat (length (user_sessions uid evs)) = count_events is_da_init evs.
Proof.
  rewrite user_sessions_unfold, pair_inits_length, collect_markers_inits.
  apply (count_events_perm is_da_init), sort_by_timestamp_perm.
Qed.

Lemma count_events_app (p : Event -> bool) (l l' : list Event) :
  count_events p (l ++ l') = count_events p l + count_events p l'.
Proof. unfold count_events. rewrite List.filter_app, length_app. lia. Qed.

(** The builder makes one session for every init marker of the adapter
    that carries a user id, and no other; in particular none for a batch
    without such a marker, whatever stop markers it holds. *)
Theorem one_session_per_init_marker (events_ : list Event) :
  Z.of_nat (length (build_debug_sessions events_))
  = count_events opens_session events_.
Proof.
  unfold build_debug_sessions.
  transitivity (count_events is_da_init (grouped_events (group_by_user events_))).
  - unfold grouped_events.
    induction (group_by_user events_) as [|[uid evs] g IH]; [reflexivity|].
    cbn [flat_map snd].
    rewrite length_app, Nat2Z.inj_add, count_events_app, IH.
    by rewrite (user_sessions_length uid evs).
  - rewrite (count_events_perm _ _ _ (group_by_user_events events_)).
    unfold count_events, opens_session. f_equal. f_equal.
    induction events_ as [|e l IH]; [reflexivity|].
    cbn [List.filter]. destruct (negb (Re.is_empty (user_of e))); cbn [andb List.filter].
    + destruct (is_da_init e); by rewrite IH.
    + exact IH.
Qed.

(** ** The groups, and the sessions of one user *)

(** The first loop of the builder partitions the events that carry a user
    id: the user ids of the groups are distinct and not empty, the group of
    a user holds exactly that user's events in their order of arrival, and
    every event with a user id is in its user's group. *)
Theorem group_by_user_partition (events_ : list Event) :
  NoDup (group_by_user events_).*1
  /\ (forall uid evs,
        (uid, evs) ∈ group_by_user events_ ->
        uid <> EmptyString
        /\ evs = filter (fun e => user_of e = uid) events_)
  /\ (forall ev,
        ev ∈ events_ -> user_of ev <> EmptyString ->
        exists evs, (user_of ev, evs) ∈ group_by_user events_ /\ ev ∈ evs).
Proof.
  destruct (group_by_user_grouped events_) as (Hnd & Hg & Hcov).
  split; [exact Hnd|]. split.
  - intros uid evs Hin. destruct (Hg uid evs Hin) as [Hne ->].
    split; [|reflexivity]. intros ->. discriminate Hne.
  - intros ev Hev Hne.
    assert (Hk : user_of ev ∈ (group_by_user events_).*1).
    { apply Hcov; [exact Hev|]. destruct (user_of ev); [congruence | reflexivity]. }
    apply list_elem_of_fmap in Hk as ([u evs] & Hu & Hin). cbn in Hu. subst u.
    exists evs. split; [exact Hin|].
    destruct (Hg _ _ Hin) as [_ ->]. by apply list_elem_of_filter.
Qed.

Lemma group_by_user_partition_witness :
  exists evs,
    ("u1", evs) ∈ group_by_user Scenario.scenario_A /\ Scenario.init_at 0 ∈ evs.
Proof.
  destruct (group_by_user_partition Scenario.scenario_A) as (_ & _ & H).
  apply (H (Scenario.init_at 0)).
  - apply list_elem_of_here.
  - vm_compute. discriminate.
Defined.

(** The sessions of a user mirror the user's init markers in timestamp
    order: one session per marker, with the user id, the marker's
    [session.id] and the marker's timestamp as [start_ts]. *)
Theorem sessions_mirror_init_markers (uid : string) (evs : list Event) :
  map (fun s => (user_id s, da_session_id s, start_ts s)) (user_sessions uid evs)
  = map (fun i => (uid, dict_get (resources_string i) "session.id" EmptyString,
                   timestamp i))
        (List.filter is_da_init (sort_by_timestamp evs)).
Proof.
  rewrite user_sessions_unfold, collect_markers_inits.
  generalize (sort_by_timestamp (collect_markers (sort_by_timestamp evs)).2).
  generalize (sort_by_timestamp evs) at 1.
  intros all_evs stop_events. generalize 0%nat.
  induction (List.filter is_da_init (sort_by_timestamp evs)) as [|init_ev rest IH];
    intros idx; cbn [pair_inits map]; [reflexivity|].
  destruct (pair_step stop_events (timestamp init_ev) (next_init_of rest) idx)
    as [end_candidate idx'].
  cbn [map]. f_equal. apply IH.
Qed.

(** The events attached to a session of the builder are exactly the events
    of the batch that carry the session's user id and whose timestamp lies
    in the closed window [[start_ts, end_ts]]. *)
Theorem attached_events_exact (events_ : list Event) (s : DebugSession) (ev : Event) :
  s ∈ build_debug_sessions events_ ->
  (ev ∈ events s <->
   ev ∈ events_ /\ user_of ev = user_id s
   /\ start_ts s <= timestamp ev <= end_ts s).
Proof.
  intros Hs. split; [by apply attached_events_in_window|].
  intros (Hev & Hu & Hlo & Hhi).
  apply elem_of_build_debug_sessions in Hs as (uid & evs & Hg & Hs).
  destruct (group_by_user_grouped events_) as (_ & Hgroups & _).
  destruct (Hgroups uid evs Hg) as [_ ->].
  pose proof (user_sessions_built uid (filter (fun e => user_of e = uid) events_)) as Hb.
  rewrite Forall_forall in Hb. specialize (Hb s Hs). unfold built_by in Hb.
  rewrite Hb in Hu |- *. cbn [events set_events new_session user_id] in *.
  apply list_elem_of_In, filter_In. split.
  - apply list_elem_of_In. rewrite sort_by_timestamp_perm.
    by apply list_elem_of_filter.
  - unfold in_window. apply andb_true_intro. split; lia.
Qed.

Lemma attached_events_exact_witness :
  let s := set_events Scenario.scenario_A (new_session "u1" EmptyString 0 60) in
  Scenario.init_at 0 ∈ events s <->
  Scenario.init_at 0 ∈ Scenario.scenario_A
  /\ user_of (Scenario.init_at 0) = user_id s
  /\ start_ts s <= timestamp (Scenario.init_at 0) <= end_ts s.
Proof.
  intros s. apply (attached_events_exact Scenario.scenario_A s).
  vm_compute. apply list_elem_of_here.
Defined.

(** The windows of a user's sessions follow one another: a session ends no
    later than every later session of the user starts, and an event that is
    attached to both sits exactly on that shared instant. *)
Theorem session_windows_in_order (uid : string) (evs : list Event)
    (i j : nat) (s s' : DebugSession) :
  user_sessions uid evs !! i = Some s ->
  user_sessions uid evs !! j = Some s' ->
  (i < j)%nat ->
  start_ts s <= end_ts s /\ end_ts s <= start_ts s' /\ start_ts s' <= end_ts s'
  /\ (forall ev, ev ∈ events s -> ev ∈ events s' ->
                 timestamp ev = end_ts s /\ timestamp ev = start_ts s').
Proof.
  intros Hi Hj Hij.
  pose proof (user_sessions_window uid evs) as Hw. rewrite Forall_forall in Hw.
  pose proof (Hw s (list_elem_of_lookup_2 _ _ _ Hi)) as H1.
  pose proof (Hw s' (list_elem_of_lookup_2 _ _ _ Hj)) as H2.
  assert (Hord : end_ts s <= start_ts s').
  { rewrite user_sessions_unfold in Hi, Hj.
    eapply (sorted_lookup_lt (fun s s' => end_ts s <= start_ts s'));
      [|exact Hi | exact Hj | exact Hij].
    apply pair_inits_ordered.
    destruct (collect_markers_sublist (sort_by_timestamp evs)) as [Hsub _].
    eapply sublist_sorted; [exact Hsub | apply sort_by_timestamp_sorted]. }
  repeat split; try assumption.
  all: pose proof (user_sessions_built uid evs) as Hb; rewrite Forall_forall in Hb.
  all: pose proof (built_events_in_window _ _ _ (Hb s (list_elem_of_lookup_2 _ _ _ Hi))) as B1.
  all: pose proof (built_events_in_window _ _ _ (Hb s' (list_elem_of_lookup_2 _ _ _ Hj))) as B2.
  all: rewrite Forall_forall in B1, B2.
  all: specialize (B1 ev H); specialize (B2 ev H0); lia.
Qed.

Lemma session_windows_in_order_witness :
  let s := set_events [Scenario.init_at 0; Scenario.init_at 10]
             (new_session "u1" EmptyString 0 10) in
  let s' := set_events [Scenario.init_at 10] (new_session "u1" EmptyString 10 10) in
  end_ts s <= start_ts s'.
Proof.
  intros s s'.
  destruct (session_windows_in_order "u1" Scenario.two_inits 0 1 s s') as (_ & H & _).
  - vm_compute. reflexivity.
  - vm_compute. reflexivity.
  - lia.
  - exact H.
Defined.

(** ** The window of a session is tight *)

Lemma filter_sorted (p : Event -> bool) (l : list Event) :
  StronglySorted ts_le l -> StronglySorted ts_le (List.filter p l).
Proof.
  induction 1 as [|x l Hs IH Hx]; cbn [List.filter]; [constructor|].
  destruct (p x); [|exact IH]. constructor; [exact IH|].
  rewrite Forall_forall in Hx |- *. intros y Hy. apply Hx.
  apply list_elem_of_In, filter_In in Hy as [Hy _]. by apply list_elem_of_In.
Qed.

Lemma sorted_head_min (l : list Event) (x : Event) :
  StronglySorted ts_le l -> x ∈ l ->
  exists f, head l = Some f /\ timestamp f <= timestamp x.
Proof.
  intros Hs Hx. destruct Hs as [|f l Hs Hf]; [by apply elem_of_nil in Hx|].
  exists f. split; [reflexivity|].
  apply elem_of_cons in Hx as [->|Hx]; [lia|].
  rewrite Forall_forall in Hf. by apply Hf.
Qed.

Lemma sorted_last_max (l : list Event) (x : Event) :
  StronglySorted ts_le l -> x ∈ l ->
  exists z, last l = Some z /\ timestamp x <= timestamp z.
Proof.
  intros Hs Hx. pose proof (last_timestamp_max l x Hs Hx) as Hmax.
  unfold last_timestamp in Hmax. destruct (last l) as [z|] eqn:Hl; [eauto|].
  apply last_None in Hl. subst l. by apply elem_of_nil in Hx.
Qed.

(** Where the end candidate of a pairing comes from. *)
Lemma pair_step_end_source (stop_events : list Event) (init_ts : Z)
    (next_init_ts : option Z) (idx : nat) (e : Z) :
  (pair_step stop_events init_ts next_init_ts idx).1 = Some e ->
  next_init_ts = Some e
  \/ exists st, st ∈ stop_events /\ timestamp st = e.
Proof.
  unfold pair_step.
  destruct (scan_stops init_ts (drop idx stop_events) idx) as [j [t|]] eqn:Hscan;
    cbn [fst].
  - apply scan_stops_found in Hscan as (_ & _ & (st & Hst & <-) & _).
    apply list_elem_of_lookup_2 in Hst.
    destruct next_init_ts as [n|]; cbn [min_inf]; intros [= <-].
    + destruct (Z.min_spec n (timestamp st)) as [[_ ->]|[_ ->]]; eauto.
    + eauto.
  - destruct next_init_ts as [n|]; cbn [min_inf]; intros [= <-]. by left.
Qed.

Lemma pair_inits_end_event (uid : string) (evs stop_events da_inits : list Event)
    (idx : nat) :
  (forall i, i ∈ da_inits -> i ∈ evs) ->
  (forall st, st ∈ stop_events -> st ∈ evs) ->
  Forall (fun s => (exists e, e ∈ evs /\ timestamp e = start_ts s)
                   /\ (exists e, e ∈ evs /\ timestamp e = end_ts s))
         (pair_inits uid evs stop_events da_inits idx).
Proof.
  intros Hinits Hstops. revert idx.
  induction da_inits as [|init_ev rest IH]; intros idx; cbn [pair_inits];
    [constructor|].
  pose proof (pair_step_end_source stop_events (timestamp init_ev)
                (next_init_of rest) idx) as Hsrc.
  destruct (pair_step stop_events (timestamp init_ev) (next_init_of rest) idx)
    as [end_candidate idx'].
  assert (Hinit : init_ev ∈ evs) by (apply Hinits, list_elem_of_here).
  constructor.
  - cbn [start_ts end_ts set_events new_session fst] in *. split; [eauto|].
    destruct end_candidate as [e|].
    + destruct (Hsrc e eq_refl) as [Hn|(st & Hst & <-)]; [|eauto].
      destruct rest as [|nxt rest]; [discriminate|]. injection Hn as <-.
      exists nxt. split; [|reflexivity]. apply Hinits.
      apply list_elem_of_further, list_elem_of_here.
    + unfold last_timestamp. destruct (last evs) as [z|] eqn:Hl.
      * exists z. split; [by apply last_Some_elem_of | reflexivity].
      * apply last_None in Hl. subst evs. by apply elem_of_nil in Hinit.
  - apply IH. intros i Hi. by apply Hinits, list_elem_of_further.
Qed.

(** The events attached to a session of the builder are in timestamp
    order, the first of them carries [start_ts] and the last [end_ts]: the
    list is not empty, and both ends of the window are timestamps of events
    of the session. *)
Theorem session_window_tight (events_ : list Event) :
  Forall (fun s =>
            StronglySorted ts_le (events s)
            /\ exists first_ev last_ev,
                head (events s) = Some first_ev
                /\ last (events s) = Some last_ev
                /\ timestamp first_ev = start_ts s
                /\ timestamp last_ev = end_ts s)
         (build_debug_sessions events_).
Proof.
  apply build_debug_sessions_Forall. intros uid evs.
  pose proof (user_sessions_built uid evs) as Hb.
  pose proof (user_sessions_window uid evs) as Hw.
  assert (He : Forall (fun s =>
              (exists e, e ∈ sort_by_timestamp evs /\ timestamp e = start_ts s)
              /\ (exists e, e ∈ sort_by_timestamp evs /\ timestamp e = end_ts s))
            (user_sessions uid evs)).
  { rewrite user_sessions_unfold.
    destruct (collect_markers_sublist (sort_by_timestamp evs)) as [Hs1 Hs2].
    apply pair_inits_end_event.
    - intros i Hi. eapply elem_of_sublist; eassumption.
    - intros st Hst. rewrite sort_by_timestamp_perm in Hst.
      eapply elem_of_sublist; eassumption. }
  rewrite Forall_forall in Hb, Hw, He |- *. intros s Hs.
  specialize (Hb s Hs). specialize (Hw s Hs).
  destruct (He s Hs) as [(e1 & He1 & Ht1) (e2 & He2 & Ht2)].
  pose proof (built_events_in_window _ _ _ Hb) as Hin. rewrite Forall_forall in Hin.
  assert (Hsorted : StronglySorted ts_le (events s)).
  { rewrite Hb. cbn [events set_events]. apply filter_sorted, sort_by_timestamp_sorted. }
  assert (Hmem : forall e, e ∈ sort_by_timestamp evs ->
                           start_ts s <= timestamp e <= end_ts s -> e ∈ events s).
  { intros e He' Hbounds. rewrite Hb. cbn [events set_events start_ts end_ts new_session].
    apply list_elem_of_In, filter_In. split; [by apply list_elem_of_In|].
    unfold in_window. apply andb_true_intro.
    rewrite Hb in Hbounds. cbn [start_ts end_ts set_events new_session] in Hbounds.
    split; lia. }
  split; [exact Hsorted|].
  destruct (sorted_head_min (events s) e1 Hsorted) as (f & Hf & Hfle);
    [apply Hmem; [exact He1 | lia]|].
  destruct (sorted_last_max (events s) e2 Hsorted) as (z & Hz & Hzle);
    [apply Hmem; [exact He2 | lia]|].
  exists f, z. repeat split; try assumption.
  - assert (f ∈ events s) by (by apply head_Some_elem_of).
    specialize (Hin f H). lia.
  - assert (z ∈ events s) by (by apply last_Some_elem_of).
    specialize (Hin z H). lia.
Qed.

(** ** The debuggee sessions of a session *)

(** After [process_session] the set [unique_sessions_viewed] holds what it
    held before and the [session] parameters of the session's activity
    events, the empty value and [undefined] excepted; nothing else. *)
Theorem viewed_sessions_exact (s : DebugSession) (x : string) :
  x ∈ unique_sessions_viewed (process_session s) <->
  x ∈ unique_sessions_viewed s
  \/ (x <> EmptyString /\ x <> "undefined"
      /\ exists ev, ev ∈ events s /\ action_of ev <> EmptyString
                    /\ dict_get (params_of ev) "session" EmptyString = x).
Proof.
  destruct (process_session_spec s) as (_ & _ & -> & _).
  rewrite elem_of_union. unfold viewed_all. rewrite elem_of_union_list.
  apply or_iff_compat_l. split.
  - intros (X & HX & Hx). apply list_elem_of_fmap in HX as (ev & -> & Hev).
    rewrite sort_by_timestamp_perm in Hev.
    unfold viewed_in, debuggee_of in Hx.
    destruct (Re.is_empty (action_of ev)) eqn:Ha; [by apply elem_of_empty in Hx|].
    destruct (Re.is_empty (dict_get (params_of ev) "session" EmptyString)) eqn:Hs;
      cbn [negb andb] in Hx; [by apply elem_of_empty in Hx|].
    destruct (String.eqb_spec (dict_get (params_of ev) "session" EmptyString)
                "undefined") as [|Hu];
      cbn [negb] in Hx; [by apply elem_of_empty in Hx|].
    apply elem_of_singleton in Hx. subst x.
    split; [intros Hx; by rewrite Hx in Hs|]. split; [exact Hu|].
    exists ev. split; [exact Hev|]. split; [|reflexivity].
    intros Hx. by rewrite Hx in Ha.
  - intros (Hne & Hu & ev & Hev & Ha & Hx).
    exists (viewed_in ev). split.
    + apply list_elem_of_fmap_2. by rewrite sort_by_timestamp_perm.
    + unfold viewed_in, debuggee_of. rewrite Hx.
      destruct (action_of ev); [congruence|]. cbn [Re.is_empty].
      destruct x; [congruence|]. cbn [Re.is_empty negb andb].
      destruct (String.eqb_spec (String a0 x) "undefined"); [congruence|].
      cbn [negb]. by apply elem_of_singleton.
Qed.

(** ** The reductions of the reporting layer *)

Lemma fold_left_add (l : list Z) (a : Z) :
  fold_left Z.add l a = a + Report.sum_list l.
Proof.
  unfold Report.sum_list. revert a.
  induction l as [|x l IH]; intros a; cbn [fold_left]; [lia|].
  rewrite (IH (a + x)), (IH (0 + x)). lia.
Qed.

Lemma sum_list_cons (x : Z) (l : list Z) :
  Report.sum_list (x :: l) = x + Report.sum_list l.
Proof.
  unfold Report.sum_list at 1. cbn [fold_left]. rewrite fold_left_add. lia.
Qed.

(** The duration filter splits the active sessions in two: each one is
    either counted as an outlier or kept in [time_filtered], so the two
    numbers add up to the number of active sessions. *)
Theorem outliers_and_time_filtered (active : list DebugSession) :
  Report.outlier_count active + Z.of_nat (length (Report.time_filtered active))
  = Z.of_nat (length active)
  /\ Forall (fun s => Report.exceeds_max s = false) (Report.time_filtered active)
  /\ Forall (fun s => Report.exceeds_max s = true \/ s ∈ Report.time_filtered active)
            active.
Proof.
  unfold Report.outlier_count, Report.time_filtered, Report.exceeds_max.
  split; [|split].
  - induction active as [|s l IH]; [reflexivity|]. cbn [List.filter].
    destruct (Z.gtb_spec (end_ts s - start_ts s) Report.MAX_REASONABLE_DURATION_NS),
      (Z.leb_spec (end_ts s - start_ts s) Report.MAX_REASONABLE_DURATION_NS);
      cbn [length]; lia.
  - apply Forall_forall. intros s Hs.
    apply list_elem_of_In, filter_In in Hs as [_ Hs].
    apply Z.leb_le in Hs. rewrite Z.gtb_ltb. by apply Z.ltb_ge.
  - apply Forall_forall. intros s Hs.
    destruct (Z.gtb_spec (end_ts s - start_ts s) Report.MAX_REASONABLE_DURATION_NS);
      [by left|].
    right. apply list_elem_of_In, filter_In. split; [by apply list_elem_of_In|].
    by apply Z.leb_le.
Qed.

(** A session of the pipeline is active exactly when one of its events is
    a step, a [set_breakpoints] or a [select_frame]: sessions that hold only
    markers, or only other activity such as [evaluate] or [continue], are
    filtered out. *)
Theorem active_iff_counted_activity (events_ : list Event) :
  Forall (fun s =>
            Report.is_active s = true <->
            exists ev, ev ∈ events s
                       /\ (is_step_event ev || is_breakpoint_event ev
                           || is_frame_event ev) = true)
         (Report.processed_sessions events_).
Proof.
  apply processed_sessions_Forall. intros uid evs s Hb _.
  pose proof (process_session_counts s) as C.
  destruct (built_counters _ _ _ Hb) as (C0 & _). rewrite C0 in C.
  unfold counters_of, counts_of in C. cbn [zip_with] in C.
  injection C as C1 C2 C3 _ _ _ _ _.
  unfold Report.is_active. rewrite C1, C2, C3, !Z.add_0_l.
  rewrite !orb_true_iff, !Z.gtb_ltb, !Z.ltb_lt, !count_events_pos.
  assert (Hperm : forall ev, ev ∈ events (process_session s) <-> ev ∈ events s).
  { intros ev. rewrite process_session_events. by rewrite sort_by_timestamp_perm. }
  split.
  - intros [[(ev & Hev & Hp)|(ev & Hev & Hp)]|(ev & Hev & Hp)];
      exists ev; (split; [by apply Hperm|]); rewrite Hp;
      rewrite ?orb_true_r; reflexivity.
  - intros (ev & Hev & Hp). apply Hperm in Hev.
    rewrite !orb_true_iff in Hp. destruct Hp as [[Hp|Hp]|Hp]; eauto 6.
Qed.

(** Over any list of sessions of the pipeline, the stepping operations that
    metric 5 averages are at most the steps that metric 1 averages. *)
Theorem metric5_operations_at_most_steps (events_ : list Event) :
  let active := Report.active_sessions (Report.processed_sessions events_) in
  Z.of_nat (length (Report.all_step_durations active))
  <= Report.sum_list (map step_count active).
Proof.
  cbv zeta. unfold Report.active_sessions.
  assert (Hall : Forall steps_cover_intervals (Report.processed_sessions events_)).
  { apply processed_sessions_Forall. intros uid evs s Hb _.
    unfold process_session. apply run_events_steps_cover.
    rewrite Hb. unfold steps_cover_intervals. cbn. lia. }
  induction Hall as [|s l Hs _ IH]; [reflexivity|]. cbn [List.filter].
  destruct (Report.is_active s); [|exact IH].
  unfold Report.all_step_durations in *. cbn [flat_map map].
  rewrite length_app, Nat2Z.inj_add, sum_list_cons.
  unfold steps_cover_intervals in Hs.
  destruct (_in_stepping s); cbn [bump] in Hs; lia.
Qed.
